(** * monitoring/performance_monitor.py: the sampling loop of PerformanceMonitor

    A shallow embedding of the PerformanceMonitor class.  Python code that
    mutates [self], logs, writes files and may raise is written in a small
    state-and-exception monad [M]: a computation takes the monitor state and
    gives back an [outcome] (a returned value or a raised exception) together
    with the state it left behind, so the writes made before a raise are kept,
    as in Python.

    Modelling conventions.
    - Python ints are [Z]; Python floats are idealised as exact rationals [Q]
      (no binary rounding), and [round(x, 2)] is rounding to the nearest
      hundredth, ties to the even hundredth.  This is not binary64: where
      the exact value is half-way between two hundredths the code's double
      can round to the other one, and a quotient too large for a double
      raises OverflowError in the code.  The general statements about these
      numbers are therefore the value 0.0 and bounds, which do not depend
      on how a tie is rounded.
    - The nested dict returned by [container.stats(stream=False)] is a record
      of optional fields: a key that is missing raises [KeyError] when read.
    - The docker client, the HTTP client, psutil and the wall clock are
      oracles gathered in a [World] value, one per tick.
    - Dicts that are iterated keep their insertion order: association lists
      with Python's item assignment ([dict_set]).
    - Writing a file is recorded in the state and does not fail.
    - The while loop of [start_monitoring] is driven by a script of what
      happens in each iteration (a tick answered by a [World], then a sleep
      that completes or is interrupted; or a signal); a script that ends
      while the loop is still running gives [None].
    - A signal is delivered as a tick begins or during a sleep, not in the
      middle of a tick; psutil always answers.
    - The clock moves with the ticks and the sleeps only: a flush takes no
      time, so statements about file names are made for one flush at a
      time, never for the names of two flushes together. *)

From Stdlib Require Import ZArith QArith Qround List String Bool Lia Lqa.
Import ListNotations.
Local Open Scope Z_scope.
Local Open Scope string_scope.
Local Open Scope list_scope.

(** ** Exceptions and outcomes *)

Inductive exn : Type :=
| NotFound                       (* docker.errors.NotFound *)
| APIError (msg : string)        (* any other docker error *)
| KeyError (key : string)
| ZeroDivisionError
| RequestException (msg : string) (* requests: connection error, timeout, ... *)
| ValueError (msg : string)
| OtherException (msg : string)
| KeyboardInterrupt
| SystemExit (code : Z).

(** [isinstance(e, Exception)]: KeyboardInterrupt and SystemExit derive from
    BaseException only, so [except Exception] lets them through. *)
Definition is_Exception (e : exn) : bool :=
  match e with
  | KeyboardInterrupt | SystemExit _ => false
  | _ => true
  end.

Inductive outcome (A : Type) : Type :=
| Ret (a : A)
| Raise (e : exn).
Arguments Ret {A} a.
Arguments Raise {A} e.

(** ** Numbers *)

(** Nearest integer to [q], ties to even. *)
Definition round_half_even (q : Q) : Z :=
  let n := Qnum q in
  let d := Zpos (Qden q) in
  let k := n / d in
  let r := n mod d in
  match Z.compare (2 * r) d with
  | Lt => k
  | Gt => k + 1
  | Eq => if Z.even k then k else k + 1
  end.

(** Python's [round(x, 2)]. *)
Definition round2 (q : Q) : Q :=
  Qred (round_half_even (q * 100) # 100).

(** Python's [a / b] on numbers: raises on a zero divisor. *)
Definition truediv (a b : Z) : outcome Q :=
  if Z.eqb b 0 then Raise ZeroDivisionError
  else Ret (inject_Z a / inject_Z b)%Q.

(** ** The data model *)

(** stats as returned by [container.stats(stream=False)]; [None] is a
    missing key. *)
Record RawStats : Type := {
  cpu_total_usage : option Z;       (* ['cpu_stats']['cpu_usage']['total_usage'] *)
  precpu_total_usage : option Z;    (* ['precpu_stats']['cpu_usage']['total_usage'] *)
  system_cpu_usage : option Z;      (* ['cpu_stats']['system_cpu_usage'] *)
  presystem_cpu_usage : option Z;   (* ['precpu_stats']['system_cpu_usage'] *)
  percpu_usage : option (list Z);   (* ['cpu_stats']['cpu_usage']['percpu_usage'] *)
  memory_usage : option Z;          (* ['memory_stats']['usage'] *)
  memory_limit : option Z           (* ['memory_stats']['limit'] *)
}.

(** A container object of the docker client. *)
Record Container : Type := {
  container_status : string;
  container_stats_call : outcome RawStats   (* container.stats(stream=False) *)
}.

(** The dict built by [get_container_stats]. *)
Record ContainerStats : Type := {
  container_name : string;
  cpu_percent : Q;
  memory_usage_mb : Q;
  memory_percent : Q;
  status : string;
  timestamp : string
}.

(** The same dict once [collect_metrics] has added its 'healthy' key; the
    values of [metrics['containers']] are all of this shape, since
    [collect_metrics] is the only code that fills that dict. *)
Record ContainerEntry : Type := {
  entry_stats : ContainerStats;
  healthy : bool
}.

(** The dict built by [get_system_stats]. *)
Record SystemStats : Type := {
  system_cpu_percent : Q;
  system_memory_percent : Q;
  system_memory_available_gb : Q;
  system_timestamp : string
}.

(** One element of [self.data]. *)
Record Metrics : Type := {
  metrics_timestamp : string;
  metrics_system : SystemStats;
  metrics_containers : list (string * ContainerEntry)
}.

(** A row of the flattened table. *)
Record Row : Type := {
  row_timestamp : string;
  row_system_cpu_percent : Q;
  row_system_memory_percent : Q;
  row_system_memory_available_gb : Q;
  row_container_name : string;
  row_container_cpu_percent : Q;
  row_container_memory_usage_mb : Q;
  row_container_memory_percent : Q;
  row_container_healthy : bool;
  row_container_status : string
}.

(** What the outside world answers during one tick. *)
Record World : Type := {
  containers_get : string -> outcome Container;   (* client.containers.get(name) *)
  requests_get : string -> outcome Z;             (* requests.get(url, timeout=5).status_code *)
  psutil_cpu_percent : Q;                         (* psutil.cpu_percent(interval=1) *)
  psutil_memory_percent : Q;                      (* psutil.virtual_memory().percent *)
  psutil_memory_available : Z;                    (* psutil.virtual_memory().available *)
  tick_duration : Q;                              (* wall-clock time the tick takes *)
  now_tick : string;                              (* datetime.now() in collect_metrics *)
  now_system : string;                            (* datetime.now() in get_system_stats *)
  now_container : string -> string                (* datetime.now() in get_container_stats *)
}.

(** File names: a caller-supplied stem, or the default one stamped with the
    current second. *)
Inductive Filename : Type :=
| Custom (stem : string)
| Stamped (second : Z).

Inductive Path : Type :=
| JsonPath (f : Filename)          (* /app/data/{filename}.json *)
| CsvPath (f : Filename).          (* /app/data/{filename}.csv *)

Inductive FileWrite : Type :=
| WriteJson (p : Path) (content : list Metrics)
| WriteCsv (p : Path) (content : list Row).

Inductive LogLine : Type :=
| LogShutdownSignal
| LogContainerNotFound (name : string)
| LogStatsError (name : string) (e : exn)
| LogCollected (ts : string)
| LogContainerLine (name : string) (st : ContainerEntry)
| LogNoData
| LogSaved (json csv : Path)
| LogStarting (interval : Z)
| LogWillRun (duration : Z)
| LogDurationCompleted
| LogInterrupted.

(** Calls of the methods the lifecycle properties count; kept for the
    proofs only, the code has no such field. *)
Inductive Call : Type :=
| CallCollect
| CallSave
| CallSleep.

Record State : Type := {
  interval : Z;                               (* self.interval *)
  data : list Metrics;                        (* self.data *)
  running : bool;                             (* self.running *)
  containers : list (string * string);        (* self.containers *)
  clock : Q;                                  (* time.time() *)
  files : list FileWrite;                     (* files written, oldest first *)
  logs : list LogLine;                        (* log lines, oldest first *)
  calls : list Call                           (* method calls, oldest first *)
}.

Definition set_data (d : list Metrics) (s : State) : State :=
  {| interval := interval s; data := d; running := running s;
     containers := containers s; clock := clock s; files := files s;
     logs := logs s; calls := calls s |}.

Definition set_running (b : bool) (s : State) : State :=
  {| interval := interval s; data := data s; running := b;
     containers := containers s; clock := clock s; files := files s;
     logs := logs s; calls := calls s |}.

Definition set_clock (t : Q) (s : State) : State :=
  {| interval := interval s; data := data s; running := running s;
     containers := containers s; clock := t; files := files s;
     logs := logs s; calls := calls s |}.

Definition add_file (w : FileWrite) (s : State) : State :=
  {| interval := interval s; data := data s; running := running s;
     containers := containers s; clock := clock s; files := files s ++ [w];
     logs := logs s; calls := calls s |}.

Definition add_log (l : LogLine) (s : State) : State :=
  {| interval := interval s; data := data s; running := running s;
     containers := containers s; clock := clock s; files := files s;
     logs := logs s ++ [l]; calls := calls s |}.

Definition add_call (c : Call) (s : State) : State :=
  {| interval := interval s; data := data s; running := running s;
     containers := containers s; clock := clock s; files := files s;
     logs := logs s; calls := calls s ++ [c] |}.

(** ** The monad *)

Definition M (A : Type) : Type := State -> outcome A * State.

Definition ret {A} (a : A) : M A := fun s => (Ret a, s).

Definition raise {A} (e : exn) : M A := fun s => (Raise e, s).

Definition bind {A B} (m : M A) (k : A -> M B) : M B :=
  fun s =>
    match m s with
    | (Ret a, s') => k a s'
    | (Raise e, s') => (Raise e, s')
    end.

Definition lift {A} (o : outcome A) : M A := fun s => (o, s).

Definition modify (f : State -> State) : M unit := fun s => (Ret tt, f s).

Definition gets {A} (f : State -> A) : M A := fun s => (Ret (f s), s).

Declare Scope monad_scope.
Delimit Scope monad_scope with monad.
Notation "x <- m ;; k" := (bind m (fun x => k))
  (at level 61, m at next level, right associativity) : monad_scope.
Notation "m ;; k" := (bind m (fun _ => k))
  (at level 61, right associativity) : monad_scope.
Local Open Scope monad_scope.

(** Sequencing of code that only computes or raises. *)
Definition obind {A B} (o : outcome A) (k : A -> outcome B) : outcome B :=
  match o with
  | Ret a => k a
  | Raise e => Raise e
  end.

Notation "x <~ o ;; k" := (obind o (fun x => k))
  (at level 61, o at next level, right associativity) : monad_scope.

(** [try: body / except <those e with handler e = Some h>: h]. *)
Definition try_except {A} (body : M A) (handler : exn -> option (M A)) : M A :=
  fun s =>
    match body s with
    | (Ret a, s') => (Ret a, s')
    | (Raise e, s') =>
        match handler e with
        | Some h => h s'
        | None => (Raise e, s')
        end
    end.

(** [try: body / finally: fin]: [fin] always runs; what [body] returned or
    raised stands unless [fin] raises itself. *)
Definition try_finally {A} (body : M A) (fin : M unit) : M A :=
  fun s =>
    match body s with
    | (o, s') =>
        match fin s' with
        | (Ret _, s'') => (o, s'')
        | (Raise e, s'') => (Raise e, s'')
        end
    end.

(** [d[key]] on a dict with an optional entry. *)
Definition getitem {A} (key : string) (v : option A) : outcome A :=
  match v with
  | Some a => Ret a
  | None => Raise (KeyError key)
  end.

(** [d[key] = v] on an insertion-ordered dict. *)
Fixpoint dict_set {V} (key : string) (v : V) (d : list (string * V))
  : list (string * V) :=
  match d with
  | [] => [(key, v)]
  | (k, x) :: rest =>
      if String.eqb k key then (k, v) :: rest
      else (k, x) :: dict_set key v rest
  end.

Fixpoint dict_get {V} (key : string) (d : list (string * V)) : option V :=
  match d with
  | [] => None
  | (k, x) :: rest => if String.eqb k key then Some x else dict_get key rest
  end.

(** ** get_container_stats (lines 50-93) *)

(** Lines 64-73: the CPU percentage from the two pairs of counters. *)
Definition calc_cpu_percent (st : RawStats) : outcome Q :=
  a <~ getitem "total_usage" (cpu_total_usage st) ;;
  b <~ getitem "total_usage" (precpu_total_usage st) ;;
  let cpu_delta := a - b in
  c <~ getitem "system_cpu_usage" (system_cpu_usage st) ;;
  d <~ getitem "system_cpu_usage" (presystem_cpu_usage st) ;;
  let system_delta := c - d in
  if Z.ltb 0 system_delta then
    q <~ truediv cpu_delta system_delta ;;
    cores <~ getitem "percpu_usage" (percpu_usage st) ;;
    Ret (q * inject_Z (Z.of_nat (List.length cores)) * 100)%Q
  else Ret 0%Q.

(** Lines 61-87: the body of the try block.  It reads the docker client and
    the clock and touches nothing of [self]. *)
Definition get_container_stats_body (w : World) (name : string)
  : outcome ContainerStats :=
  container <~ containers_get w name ;;
  stats <~ container_stats_call container ;;
  cpu <~ calc_cpu_percent stats ;;
  usage <~ getitem "usage" (memory_usage stats) ;;
  limit <~ getitem "limit" (memory_limit stats) ;;
  ratio <~ truediv usage limit ;;
  let mem_percent := (ratio * 100)%Q in
  mb <~ truediv usage (1024 * 1024) ;;
  Ret {| container_name := name;
         cpu_percent := round2 cpu;
         memory_usage_mb := round2 mb;
         memory_percent := round2 mem_percent;
         status := container_status container;
         timestamp := now_container w name |}.

Definition get_container_stats (w : World) (name : string)
  : M (option ContainerStats) :=
  try_except
    (r <- lift (get_container_stats_body w name) ;; ret (Some r))
    (fun e =>
       match e with
       | NotFound =>
           Some (modify (add_log (LogContainerNotFound name)) ;; ret None)
       | _ =>
           if is_Exception e
           then Some (modify (add_log (LogStatsError name e)) ;; ret None)
           else None
       end).

(** ** check_container_health (lines 95-110) *)

Definition check_container_health (w : World) (name url : string) : M bool :=
  try_except
    (status_code <- lift (requests_get w url) ;;
     ret (Z.eqb status_code 200))
    (fun e => if is_Exception e then Some (ret false) else None).

(** ** get_system_stats (lines 112-124) *)

Definition get_system_stats (w : World) : outcome SystemStats :=
  gb <~ truediv (psutil_memory_available w) (1024 ^ 3) ;;
  Ret {| system_cpu_percent := psutil_cpu_percent w;
         system_memory_percent := psutil_memory_percent w;
         system_memory_available_gb := round2 gb;
         system_timestamp := now_system w |}.

(** ** collect_metrics (lines 126-151) *)

(** Lines 135-139: the loop over [self.containers.items()], filling
    [metrics['containers']].  The dict [get_container_stats] returns has six
    keys, so [if container_stats:] tests it against [None]. *)
Fixpoint collect_containers (w : World) (items : list (string * string))
  (acc : list (string * ContainerEntry)) : M (list (string * ContainerEntry)) :=
  match items with
  | [] => ret acc
  | (name, url) :: rest =>
      container_stats <- get_container_stats w name ;;
      match container_stats with
      | Some st =>
          h <- check_container_health w name url ;;
          collect_containers w rest
            (dict_set name {| entry_stats := st; healthy := h |} acc)
      | None => collect_containers w rest acc
      end
  end.

(** Lines 145-151: one log line per entry. *)
Definition log_entries (cs : list (string * ContainerEntry)) (s : State) : State :=
  fold_left (fun s' p => add_log (LogContainerLine (fst p) (snd p)) s') cs s.

Definition collect_metrics (w : World) : M unit :=
  modify (add_call CallCollect) ;;
  let timestamp := now_tick w in
  sys <- lift (get_system_stats w) ;;
  items <- gets containers ;;
  cs <- collect_containers w items [] ;;
  let metrics := {| metrics_timestamp := timestamp;
                    metrics_system := sys;
                    metrics_containers := cs |} in
  modify (fun s => set_data (data s ++ [metrics]) s) ;;
  modify (add_log (LogCollected timestamp)) ;;
  modify (log_entries cs) ;;
  modify (fun s => set_clock (clock s + tick_duration w)%Q s).

(** ** save_data (lines 153-203) *)

(** Lines 175-193: the rows of one entry, appended to [flattened_data]. *)
Definition make_row (entry : Metrics) (name : string) (stats : ContainerEntry) : Row :=
  {| row_timestamp := metrics_timestamp entry;
     row_system_cpu_percent := system_cpu_percent (metrics_system entry);
     row_system_memory_percent := system_memory_percent (metrics_system entry);
     row_system_memory_available_gb :=
       system_memory_available_gb (metrics_system entry);
     row_container_name := name;
     row_container_cpu_percent := cpu_percent (entry_stats stats);
     row_container_memory_usage_mb := memory_usage_mb (entry_stats stats);
     row_container_memory_percent := memory_percent (entry_stats stats);
     row_container_healthy := healthy stats;
     row_container_status := status (entry_stats stats) |}.

(** Lines 182-193: the inner loop.  An entry is a dict of seven keys, so
    [if stats:] holds for each. *)
Definition flatten_entry (flattened_data : list Row) (entry : Metrics) : list Row :=
  fold_left (fun acc p => acc ++ [make_row entry (fst p) (snd p)])
    (metrics_containers entry) flattened_data.

(** Lines 173-193. *)
Definition flatten (d : list Metrics) : list Row :=
  fold_left flatten_entry d [].

Definition default_filename : M Filename :=
  t <- gets clock ;; ret (Stamped (Qfloor t)).

Definition save_data (filename : option string) : M (option (option Path * Path)) :=
  modify (add_call CallSave) ;;
  d <- gets data ;;
  match d with
  | [] => modify (add_log LogNoData) ;; ret None
  | _ :: _ =>
      fname <- match filename with
               | Some f => ret (Custom f)
               | None => default_filename
               end ;;
      let json_path := JsonPath fname in
      modify (add_file (WriteJson json_path d)) ;;
      let flattened_data := flatten d in
      match flattened_data with
      | _ :: _ =>
          let csv_path := CsvPath fname in
          modify (add_file (WriteCsv csv_path flattened_data)) ;;
          modify (add_log (LogSaved json_path csv_path)) ;;
          ret (Some (Some csv_path, json_path))
      | [] => ret (Some (None, json_path))
      end
  end.

(** ** signal_handler (lines 43-48) *)

Definition signal_handler : M unit :=
  modify (add_log LogShutdownSignal) ;;
  modify (set_running false) ;;
  save_data None ;;
  raise (SystemExit 0).

(** ** start_monitoring (lines 205-233) *)

(** What happens while the loop sleeps. *)
Inductive SleepEvent : Type :=
| SleepDone               (* the sleep lasts [interval] seconds *)
| SleepSignal             (* SIGINT or SIGTERM arrives: [signal_handler] runs *)
| SleepInterrupted.       (* KeyboardInterrupt is raised *)

(** What happens in one iteration of the loop. *)
Inductive TickEvent : Type :=
| Tick (w : World) (sl : SleepEvent)   (* collect_metrics runs against [w] *)
| TickSignal.                          (* SIGINT or SIGTERM arrives as the tick
                                          begins, before anything is appended *)

(** [time.sleep(self.interval)]. *)
Definition sleep (ev : SleepEvent) : M unit :=
  modify (add_call CallSleep) ;;
  i <- gets interval ;;
  if Z.ltb i 0 then raise (ValueError "sleep length must be non-negative")
  else
    match ev with
    | SleepDone => modify (fun s => set_clock (clock s + inject_Z i)%Q s)
    | SleepSignal => signal_handler
    | SleepInterrupted => raise KeyboardInterrupt
    end.

(** [duration and (time.time() - start_time) >= duration]. *)
Definition duration_reached (duration : option Z) (start_time now : Q) : bool :=
  match duration with
  | Some d => negb (Z.eqb d 0) && Qle_bool (inject_Z d) (now - start_time)
  | None => false
  end.

(** Lines 220-227. *)
Fixpoint monitoring_loop (duration : option Z) (start_time : Q)
  (script : list TickEvent) (s : State) : option (outcome unit * State) :=
  if running s then
    match script with
    | [] => None
    | TickSignal :: _ => Some (signal_handler s)
    | Tick w sl :: rest =>
        match collect_metrics w s with
        | (Raise e, s1) => Some (Raise e, s1)
        | (Ret _, s1) =>
            if duration_reached duration start_time (clock s1)
            then Some (Ret tt, add_log LogDurationCompleted s1)
            else
              match sleep sl s1 with
              | (Raise e, s2) => Some (Raise e, s2)
              | (Ret _, s2) => monitoring_loop duration start_time rest s2
              end
        end
    end
  else Some (Ret tt, s).

(** Lines 212-217. *)
Definition start_monitoring_prologue (duration : option Z) (s : State) : State :=
  let s1 := add_log (LogStarting (interval s)) (set_running true s) in
  match duration with
  | Some d => if Z.eqb d 0 then s1 else add_log (LogWillRun d) s1
  | None => s1
  end.

(** Lines 231-233: the finally clause. *)
Definition finally_clause : M unit :=
  modify (set_running false) ;; save_data None ;; ret tt.

(** The try block is the loop; [after_loop] is how and in which state it
    ended, which the except and finally clauses then take up. *)
Definition start_monitoring (duration : option Z) (script : list TickEvent)
  (s : State) : option (outcome unit * State) :=
  let start_time := clock s in
  let s1 := start_monitoring_prologue duration s in
  match monitoring_loop duration start_time script s1 with
  | None => None
  | Some after_loop =>
      Some (try_finally
              (try_except (fun _ => after_loop)
                 (fun e =>
                    match e with
                    | KeyboardInterrupt => Some (modify (add_log LogInterrupted))
                    | _ => None
                    end))
              finally_clause
              s1)
  end.

(** ** __init__ (lines 15-41) *)

Definition init (interval : Z) (now : Q) : State :=
  {| interval := interval;
     data := [];
     running := false;
     containers := [("node-nextjs-app", "http://localhost:3001");
                    ("deno-nextjs-app", "http://localhost:3002");
                    ("bun-nextjs-app", "http://localhost:3003")];
     clock := now;
     files := [];
     logs := [];
     calls := [] |}.

(** Number of ticks and of flushes a run has made. *)
Definition is_collect (c : Call) : bool :=
  match c with CallCollect => true | _ => false end.

Definition is_save (c : Call) : bool :=
  match c with CallSave => true | _ => false end.

Definition ticks (s : State) : nat := List.length (filter is_collect (calls s)).

Definition flushes (s : State) : nat := List.length (filter is_save (calls s)).

(** ** get_latest_data (lines 235-237) *)

(** [l[-1]]: the last item, IndexError on an empty list. *)
Fixpoint last_item {A} (l : list A) : outcome A :=
  match l with
  | [] => Raise (OtherException "IndexError: list index out of range")
  | [x] => Ret x
  | _ :: rest => last_item rest
  end.

Definition get_latest_data : M (option Metrics) :=
  d <- gets data ;;
  match d with
  | _ :: _ => x <- lift (last_item d) ;; ret (Some x)
  | [] => ret None
  end.

(** ** get_dataframe (lines 239-266) *)

(** A row of the DataFrame: as a row of the CSV file, with the timestamp
    converted by [pd.to_datetime] to a value of type [T]. *)
Record FrameRow (T : Type) : Type := {
  frame_timestamp : T;
  frame_system_cpu_percent : Q;
  frame_system_memory_percent : Q;
  frame_system_memory_available_gb : Q;
  frame_container_name : string;
  frame_container_cpu_percent : Q;
  frame_container_memory_usage_mb : Q;
  frame_container_memory_percent : Q;
  frame_container_healthy : bool;
  frame_container_status : string
}.
Arguments frame_timestamp {T} _.
Arguments frame_system_cpu_percent {T} _.
Arguments frame_system_memory_percent {T} _.
Arguments frame_system_memory_available_gb {T} _.
Arguments frame_container_name {T} _.
Arguments frame_container_cpu_percent {T} _.
Arguments frame_container_memory_usage_mb {T} _.
Arguments frame_container_memory_percent {T} _.
Arguments frame_container_healthy {T} _.
Arguments frame_container_status {T} _.

Section GetDataframe.
Context {T : Type}.
(** [pd.to_datetime], on the ISO strings that [collect_metrics] stores. *)
Variable to_datetime : string -> T.

(** Lines 246-264: the rows of one entry. *)
Definition make_frame_row (entry : Metrics) (name : string)
  (stats : ContainerEntry) : FrameRow T :=
  {| frame_timestamp := to_datetime (metrics_timestamp entry);
     frame_system_cpu_percent := system_cpu_percent (metrics_system entry);
     frame_system_memory_percent := system_memory_percent (metrics_system entry);
     frame_system_memory_available_gb :=
       system_memory_available_gb (metrics_system entry);
     frame_container_name := name;
     frame_container_cpu_percent := cpu_percent (entry_stats stats);
     frame_container_memory_usage_mb := memory_usage_mb (entry_stats stats);
     frame_container_memory_percent := memory_percent (entry_stats stats);
     frame_container_healthy := healthy stats;
     frame_container_status := status (entry_stats stats) |}.

Definition frame_entry (flattened_data : list (FrameRow T)) (entry : Metrics)
  : list (FrameRow T) :=
  fold_left (fun acc p => acc ++ [make_frame_row entry (fst p) (snd p)])
    (metrics_containers entry) flattened_data.

(** The DataFrame is the list of its rows; [pd.DataFrame()] has none. *)
Definition get_dataframe : M (list (FrameRow T)) :=
  d <- gets data ;;
  match d with
  | [] => ret []
  | _ :: _ => ret (fold_left frame_entry d [])
  end.

(** The DataFrame row that corresponds to a row of the CSV file. *)
Definition frame_of_row (r : Row) : FrameRow T :=
  {| frame_timestamp := to_datetime (row_timestamp r);
     frame_system_cpu_percent := row_system_cpu_percent r;
     frame_system_memory_percent := row_system_memory_percent r;
     frame_system_memory_available_gb := row_system_memory_available_gb r;
     frame_container_name := row_container_name r;
     frame_container_cpu_percent := row_container_cpu_percent r;
     frame_container_memory_usage_mb := row_container_memory_usage_mb r;
     frame_container_memory_percent := row_container_memory_percent r;
     frame_container_healthy := row_container_healthy r;
     frame_container_status := row_container_status r |}.
End GetDataframe.

(** ** main (lines 268-281) *)

(** [--interval] and [--duration] as given on the command line, [None] when
    absent; the docker client is taken to be reachable. *)
Definition main (arg_interval arg_duration : option Z) (now : Q)
  (script : list TickEvent) : option (outcome unit * State) :=
  let interval := match arg_interval with Some i => i | None => 10 end in
  start_monitoring arg_duration script (init interval now).

(** ** Sample inputs *)

Definition sample_stats : RawStats :=
  {| cpu_total_usage := Some 2000;
     precpu_total_usage := Some 1000;
     system_cpu_usage := Some 50000;
     presystem_cpu_usage := Some 40000;
     percpu_usage := Some [700; 300];
     memory_usage := Some (50 * 1024 * 1024);
     memory_limit := Some (1024 * 1024 * 1024) |}.

(** A world in which the node container answers, the deno container is
    unknown to docker and the bun container reports a zero memory limit;
    a tick takes [d] seconds. *)
Definition sample_world (d : Q) : World :=
  {| containers_get := fun name =>
       if String.eqb name "node-nextjs-app" then
         Ret {| container_status := "running";
                container_stats_call := Ret sample_stats |}
       else if String.eqb name "bun-nextjs-app" then
         Ret {| container_status := "running";
                container_stats_call :=
                  Ret {| cpu_total_usage := Some 2000;
                         precpu_total_usage := Some 1000;
                         system_cpu_usage := Some 50000;
                         presystem_cpu_usage := Some 40000;
                         percpu_usage := Some [700; 300];
                         memory_usage := Some 0;
                         memory_limit := Some 0 |} |}
       else Raise NotFound;
     requests_get := fun url =>
       if String.eqb url "http://localhost:3001" then Ret 200
       else Raise (RequestException "connection refused");
     psutil_cpu_percent := 12.5;
     psutil_memory_percent := 40;
     psutil_memory_available := 8 * 1024 ^ 3;
     tick_duration := d;
     now_tick := "2024-01-01T00:00:00";
     now_system := "2024-01-01T00:00:01";
     now_container := fun _ => "2024-01-01T00:00:01" |}.

(** The series after two ticks in the sample world. *)
Definition sample_series : list Metrics :=
  Eval vm_compute in
    data (snd (collect_metrics (sample_world 0)
                 (snd (collect_metrics (sample_world 0) (init 10 0))))).

(** The monitor after one tick in the sample world. *)
Definition sample_state_after_tick : State :=
  Eval vm_compute in snd (collect_metrics (sample_world 0) (init 10 0)).

(** ** Predicates used in the statements *)

(** The outcome is a value or an error, that is an exception deriving from
    [Exception]. *)
Definition value_or_error {A} (o : outcome A) : bool :=
  match o with
  | Ret _ => true
  | Raise e => is_Exception e
  end.

(** The docker client answers the lookup and the stats call of [name] with
    values or errors. *)
Definition docker_errors_only (w : World) (name : string) : bool :=
  match containers_get w name with
  | Ret c => value_or_error (container_stats_call c)
  | Raise e => is_Exception e
  end.

(** The same for docker and for the HTTP client, on every configured target. *)
Definition world_errors_only (w : World) (items : list (string * string)) : bool :=
  forallb (fun p => docker_errors_only w (fst p)
                    && value_or_error (requests_get w (snd p))) items.

(** The try block of [get_container_stats] fails at [name]. *)
Definition fetch_fails (w : World) (name : string) : bool :=
  match get_container_stats_body w name with
  | Ret _ => false
  | Raise _ => true
  end.

(** A success status code in the words of the specification: the 2xx class
    of HTTP. *)
Definition spec_success_status (status_code : Z) : bool :=
  Z.leb 200 status_code && Z.ltb status_code 300.

(** The keys of a dict, in order. *)
Definition keys {V} (d : list (string * V)) : list string := map fst d.

(** A call changed nothing of the state but the log. *)
Definition only_logged (s s' : State) : Prop :=
  interval s' = interval s /\ data s' = data s /\ running s' = running s /\
  containers s' = containers s /\ clock s' = clock s /\ files s' = files s /\
  calls s' = calls s.

(** An iteration that runs to its end: the tick, then the whole sleep. *)
Definition completed (w : World) : TickEvent := Tick w SleepDone.

(** An iteration in which SIGINT or SIGTERM is delivered, as the tick
    begins or during the sleep that follows it; [cfg] is [self.containers]. *)
Definition signal_event (cfg : list (string * string)) (ev : TickEvent) : bool :=
  match ev with
  | TickSignal => true
  | Tick w SleepSignal => world_errors_only w cfg
  | Tick _ _ => false
  end.

(** The ticks made in such an iteration. *)
Definition signal_ticks (ev : TickEvent) : nat :=
  match ev with
  | TickSignal => 0%nat
  | Tick _ _ => 1%nat
  end.

(** No signal is delivered anywhere in the script. *)
Definition no_signal (script : list TickEvent) : bool :=
  forallb (fun ev => match ev with
                     | TickSignal | Tick _ SleepSignal => false
                     | Tick _ _ => true
                     end) script.

(** What a file write holds, apart from its path. *)
Definition write_content (fw : FileWrite) : list Metrics + list Row :=
  match fw with
  | WriteJson _ content => inl content
  | WriteCsv _ content => inr content
  end.

(** The rows that come from one snapshot. *)
Definition rows_of (entry : Metrics) : list Row :=
  map (fun p => make_row entry (fst p) (snd p)) (metrics_containers entry).

(** A world that differs from [w] in the answers of the HTTP client only. *)
Definition set_requests_get (f : string -> outcome Z) (w : World) : World :=
  {| containers_get := containers_get w;
     requests_get := f;
     psutil_cpu_percent := psutil_cpu_percent w;
     psutil_memory_percent := psutil_memory_percent w;
     psutil_memory_available := psutil_memory_available w;
     tick_duration := tick_duration w;
     now_tick := now_tick w;
     now_system := now_system w;
     now_container := now_container w |}.

(** The snapshot has at least one entry. *)
Definition has_entries (m : Metrics) : bool :=
  match metrics_containers m with
  | [] => false
  | _ :: _ => true
  end.

(** The file name [save_data] settles on. *)
Definition chosen_filename (filename : option string) (s : State) : Filename :=
  match filename with
  | Some f => Custom f
  | None => Stamped (Qfloor (clock s))
  end.

(** The files one call of [save_data] writes for a series [d] under the
    name [fname]. *)
Definition saved_files (fname : Filename) (d : list Metrics) : list FileWrite :=
  match d with
  | [] => []
  | _ :: _ =>
      WriteJson (JsonPath fname) d ::
      (if existsb has_entries d
       then [WriteCsv (CsvPath fname) (flatten d)]
       else [])
  end.

(** No tick of the list takes a negative time. *)
Definition durations_nonneg (ws : list World) : bool :=
  forallb (fun w => Qle_bool 0 (tick_duration w)) ws.

(** A sleep in which no signal arrives. *)
Definition quiet_sleep (sl : SleepEvent) : bool :=
  match sl with
  | SleepSignal => false
  | _ => true
  end.

(** * Properties *)

(** ** Rounding *)

Lemma round_half_even_nonneg (q : Q) : (0 <= q)%Q -> 0 <= round_half_even q.
Proof.
  intros Hq. unfold round_half_even.
  destruct q as [n d]. unfold Qle in Hq. simpl in *.
  assert (Hn : 0 <= n) by lia.
  assert (Hk : 0 <= n / Zpos d) by (apply Z.div_pos; lia).
  destruct (Z.compare _ _); [destruct (Z.even _) | |]; lia.
Qed.

Lemma round2_nonneg (q : Q) : (0 <= q)%Q -> (0 <= round2 q)%Q.
Proof.
  intros Hq. unfold round2. rewrite Qred_correct.
  assert (H : 0 <= round_half_even (q * 100)).
  { apply round_half_even_nonneg.
    apply Qmult_le_0_compat; [assumption | discriminate]. }
  unfold Qle. simpl. lia.
Qed.

Lemma round2_zero : round2 0 = 0%Q.
Proof. reflexivity. Qed.

(** ** The monad on values and errors *)

Lemma bind_eq {A B} (m : M A) (k : A -> M B) (a : A) (s s' : State) :
  m s = (Ret a, s') -> bind m k s = k a s'.
Proof. intros H. unfold bind. rewrite H. reflexivity. Qed.

Lemma bind_modify {B} (f : State -> State) (k : unit -> M B) (s : State) :
  bind (modify f) k s = k tt (f s).
Proof. reflexivity. Qed.

(** ** get_container_stats *)

(** What [get_container_stats] does, by the outcome of its try block. *)
Lemma get_container_stats_on_value (w : World) (name : string) (s : State)
  (r : ContainerStats) :
  get_container_stats_body w name = Ret r ->
  get_container_stats w name s = (Ret (Some r), s).
Proof.
  intros Hb. unfold get_container_stats, try_except, bind, lift.
  rewrite Hb. reflexivity.
Qed.

Lemma get_container_stats_on_error (w : World) (name : string) (s : State) (e : exn) :
  get_container_stats_body w name = Raise e ->
  is_Exception e = true ->
  exists l, get_container_stats w name s = (Ret None, add_log l s).
Proof.
  intros Hb He. unfold get_container_stats, try_except, bind at 1, lift.
  rewrite Hb.
  destruct e; simpl in He; try discriminate; eexists; reflexivity.
Qed.

(** The exceptions of the try block are those of the docker client, a
    KeyError or a ZeroDivisionError. *)
Lemma get_container_stats_body_raises (w : World) (name : string) (e : exn) :
  docker_errors_only w name = true ->
  get_container_stats_body w name = Raise e ->
  is_Exception e = true.
Proof.
  unfold docker_errors_only, get_container_stats_body.
  destruct (containers_get w name) as [c|e0]; simpl.
  2:{ intros He [= <-]. exact He. }
  destruct (container_stats_call c) as [st|e0]; simpl.
  2:{ intros He [= <-]. exact He. }
  intros _.
  unfold calc_cpu_percent, obind, getitem, truediv.
  repeat match goal with
         | |- context [match ?x with _ => _ end] =>
             match type of x with
             | option _ => destruct x
             | bool => destruct x
             end
         end; simpl; intros [= <-]; reflexivity.
Qed.

(** The record of the try block carries the rounded result of lines 64-73. *)
Lemma get_container_stats_body_cpu (w : World) (name : string) (c : Container)
  (st : RawStats) (q : Q) (r : ContainerStats) :
  containers_get w name = Ret c ->
  container_stats_call c = Ret st ->
  calc_cpu_percent st = Ret q ->
  get_container_stats_body w name = Ret r ->
  cpu_percent r = round2 q.
Proof.
  intros Hc Hst Hq. unfold get_container_stats_body.
  rewrite Hc. simpl. rewrite Hst. simpl. rewrite Hq. simpl.
  unfold obind, getitem, truediv.
  destruct (memory_usage st); [|discriminate].
  destruct (memory_limit st); [|discriminate].
  destruct (Z.eqb z0 0); [discriminate|].
  simpl. intros [= <-]. reflexivity.
Qed.

(** A record that [get_container_stats] returns is the one of its try block. *)
Lemma get_container_stats_some (w : World) (name : string) (s s' : State)
  (r : ContainerStats) :
  get_container_stats w name s = (Ret (Some r), s') ->
  get_container_stats_body w name = Ret r /\ s' = s.
Proof.
  unfold get_container_stats, try_except, bind at 1, lift.
  destruct (get_container_stats_body w name) as [r0|e].
  - unfold ret. intros [= <- <-]. split; reflexivity.
  - destruct e; simpl; discriminate.
Qed.

(** C3. When the system counter has not advanced (system_delta <= 0), the
    CPU computation of lines 64-73 gives exactly 0.0 for all non-negative
    counters, whatever the per-core list is, also when it is missing; it
    stays 0.0 after [round(_, 2)], and every record [get_container_stats]
    returns from such counters has cpu_percent 0.0. *)
Theorem cpu_percent_zero_without_system_delta
  (st : RawStats) (cpu_now cpu_prev system_now system_prev : Z) :
  cpu_total_usage st = Some cpu_now ->
  precpu_total_usage st = Some cpu_prev ->
  system_cpu_usage st = Some system_now ->
  presystem_cpu_usage st = Some system_prev ->
  0 <= cpu_now -> 0 <= cpu_prev -> 0 <= system_now -> 0 <= system_prev ->
  system_now - system_prev <= 0 ->
  calc_cpu_percent st = Ret 0%Q /\
  round2 0 = 0%Q /\
  (forall w name c s s' r,
      containers_get w name = Ret c ->
      container_stats_call c = Ret st ->
      get_container_stats w name s = (Ret (Some r), s') ->
      cpu_percent r = 0%Q).
Proof.
  intros Ha Hb Hc Hd _ _ _ _ Hdelta.
  assert (Hcalc : calc_cpu_percent st = Ret 0%Q).
  { unfold calc_cpu_percent. rewrite Ha, Hb, Hc, Hd. simpl.
    replace (Z.ltb 0 (system_now - system_prev)) with false
      by (symmetry; apply Z.ltb_ge; exact Hdelta).
    reflexivity. }
  split; [exact Hcalc|]. split; [reflexivity|].
  intros w name c s s' r Hget Hst Hres.
  apply get_container_stats_some in Hres. destruct Hres as [Hbody _].
  rewrite (get_container_stats_body_cpu w name c st 0%Q r Hget Hst Hcalc Hbody).
  reflexivity.
Qed.

(** C3 at counters whose system reading stands still, with no per-core
    list in the stats. *)
Lemma cpu_percent_zero_without_system_delta_witness :
  calc_cpu_percent
    {| cpu_total_usage := Some 2000; precpu_total_usage := Some 1000;
       system_cpu_usage := Some 40000; presystem_cpu_usage := Some 40000;
       percpu_usage := None;
       memory_usage := Some 1; memory_limit := Some 2 |}
  = Ret 0%Q.
Proof.
  refine (proj1 (cpu_percent_zero_without_system_delta _ 2000 1000 40000 40000
                   _ _ _ _ _ _ _ _ _));
    try reflexivity; lia.
Defined.

(** A zero memory limit makes the try block raise: ZeroDivisionError at
    line 78, unless an earlier line has already raised. *)
Lemma zero_memory_limit_raises (w : World) (name : string) (c : Container)
  (st : RawStats) :
  containers_get w name = Ret c ->
  container_stats_call c = Ret st ->
  memory_limit st = Some 0 ->
  fetch_fails w name = true.
Proof.
  intros Hc Hst Hl. unfold fetch_fails, get_container_stats_body.
  rewrite Hc. simpl. rewrite Hst. simpl.
  destruct (calc_cpu_percent st) as [q|e]; [|reflexivity].
  simpl. rewrite Hl. destruct (memory_usage st); reflexivity.
Qed.

(** With a docker client that raises nothing but errors the fetcher
    returns. *)
Lemma get_container_stats_returns_option (w : World) (name : string) (s : State) :
  docker_errors_only w name = true ->
  exists o s', get_container_stats w name s = (Ret o, s').
Proof.
  intros Hw.
  destruct (get_container_stats_body w name) as [r0|e] eqn:Hb.
  - exists (Some r0), s. apply get_container_stats_on_value. exact Hb.
  - pose proof (get_container_stats_body_raises w name e Hw Hb) as He.
    destruct (get_container_stats_on_error w name s e Hb He) as [l Hl].
    exists None, (add_log l s). exact Hl.
Qed.

(** C10. Whatever error the docker client raises for a target, and whatever
    the stats dict lacks, [get_container_stats] returns: it returns None
    whenever a line of its try block failed, in particular when the stats
    report a memory limit of zero, and it never raises. *)
Theorem get_container_stats_never_raises (w : World) (name : string) (s : State) :
  docker_errors_only w name = true ->
  exists r s',
    get_container_stats w name s = (Ret r, s') /\
    (fetch_fails w name = true -> r = None) /\
    (forall c st,
        containers_get w name = Ret c ->
        container_stats_call c = Ret st ->
        memory_limit st = Some 0 ->
        r = None).
Proof.
  intros Hw.
  assert (Hmain : exists r s',
             get_container_stats w name s = (Ret r, s') /\
             (fetch_fails w name = true -> r = None)).
  { destruct (get_container_stats_body w name) as [r0|e] eqn:Hb.
    - exists (Some r0), s. split.
      + apply get_container_stats_on_value. exact Hb.
      + unfold fetch_fails. rewrite Hb. discriminate.
    - pose proof (get_container_stats_body_raises w name e Hw Hb) as He.
      destruct (get_container_stats_on_error w name s e Hb He) as [l Hl].
      exists None, (add_log l s). split; [exact Hl | reflexivity]. }
  destruct Hmain as [r [s' [Hres Hfail]]].
  exists r, s'. split; [exact Hres|]. split; [exact Hfail|].
  intros c st Hc Hst Hl. apply Hfail.
  exact (zero_memory_limit_raises w name c st Hc Hst Hl).
Qed.

(** C10 at the bun container of the sample world, whose memory limit is 0:
    the answer is None, with the error logged. *)
Lemma get_container_stats_never_raises_witness :
  docker_errors_only (sample_world 0) "bun-nextjs-app" = true /\
  fetch_fails (sample_world 0) "bun-nextjs-app" = true /\
  exists s',
    get_container_stats (sample_world 0) "bun-nextjs-app" (init 10 0)
      = (Ret None, s').
Proof.
  split; [reflexivity|]. split; [reflexivity|].
  destruct (get_container_stats_never_raises (sample_world 0) "bun-nextjs-app"
              (init 10 0) eq_refl) as [r [s' [Hres [Hfail _]]]].
  exists s'. rewrite Hres. rewrite (Hfail eq_refl). reflexivity.
Defined.

(** ** check_container_health *)

Lemma check_container_health_value (w : World) (name url : string) (s : State) :
  value_or_error (requests_get w url) = true ->
  check_container_health w name url s
  = (Ret (match requests_get w url with
          | Ret status_code => Z.eqb status_code 200
          | Raise _ => false
          end), s).
Proof.
  unfold check_container_health, try_except, bind, lift, ret, value_or_error.
  destruct (requests_get w url) as [code|e]; [reflexivity|].
  intros ->. reflexivity.
Qed.

(** C8, as stated, fails: a GET answered with 204 No Content, a success
    status code, makes the prober return false. *)
Lemma check_container_health_rejects_204 :
  ~ (forall (w : World) (name url : string) (s : State),
        fst (check_container_health w name url s) = Ret true <->
        exists status_code,
          requests_get w url = Ret status_code /\
          spec_success_status status_code = true).
Proof.
  intros H.
  pose (w := {| containers_get := fun _ => Raise NotFound;
                requests_get := fun _ => Ret 204;
                psutil_cpu_percent := 0; psutil_memory_percent := 0;
                psutil_memory_available := 0; tick_duration := 0;
                now_tick := ""; now_system := "";
                now_container := fun _ => "" |}).
  destruct (H w "node-nextjs-app" "http://localhost:3001" (init 10 0)) as [_ Hback].
  assert (Hex : exists status_code,
             requests_get w "http://localhost:3001" = Ret status_code /\
             spec_success_status status_code = true)
    by (exists 204; split; reflexivity).
  specialize (Hback Hex). discriminate Hback.
Qed.

(** C8, amended. The prober returns true exactly when the GET returns the
    status code 200; when the GET raises an error (an exception deriving
    from Exception, a timeout included) or returns another status code, it
    returns false; in both cases it returns, leaving the monitor as it was,
    and raises nothing. *)
Theorem check_container_health_true_iff_200
  (w : World) (name url : string) (s : State) :
  (fst (check_container_health w name url s) = Ret true <->
   requests_get w url = Ret 200) /\
  (value_or_error (requests_get w url) = true ->
   exists b,
     check_container_health w name url s = (Ret b, s) /\
     (requests_get w url <> Ret 200 -> b = false)).
Proof.
  split.
  - unfold check_container_health, try_except, bind, lift, ret.
    destruct (requests_get w url) as [code|e]; simpl.
    + split.
      * intros [= H]. apply Z.eqb_eq in H. subst code. reflexivity.
      * intros [= ->]. reflexivity.
    + destruct (is_Exception e); simpl; split; discriminate.
  - intros Hv. rewrite (check_container_health_value w name url s Hv).
    eexists. split; [reflexivity|].
    destruct (requests_get w url) as [code|e]; [|reflexivity].
    intros Hne. apply Z.eqb_neq. intros ->. apply Hne. reflexivity.
Qed.

(** C8 amended, at a GET that is refused: the prober answers false. *)
Lemma check_container_health_true_iff_200_witness :
  check_container_health (sample_world 0) "deno-nextjs-app"
    "http://localhost:3002" (init 10 0)
  = (Ret false, init 10 0).
Proof.
  destruct (proj2 (check_container_health_true_iff_200 (sample_world 0)
                     "deno-nextjs-app" "http://localhost:3002" (init 10 0))
              eq_refl) as [b [Hb Hfalse]].
  rewrite Hb. rewrite Hfalse; [reflexivity | discriminate].
Defined.

(** ** Dicts *)

Lemma keys_dict_set {V} (key : string) (v : V) (d : list (string * V)) (name : string) :
  In name (keys (dict_set key v d)) <-> name = key \/ In name (keys d).
Proof.
  induction d as [|[k x] rest IH]; simpl.
  - intuition congruence.
  - destruct (String.eqb k key) eqn:Hk; simpl.
    + apply String.eqb_eq in Hk. subst k. intuition congruence.
    + rewrite IH. intuition congruence.
Qed.

Lemma NoDup_keys_dict_set {V} (key : string) (v : V) (d : list (string * V)) :
  NoDup (keys d) -> NoDup (keys (dict_set key v d)).
Proof.
  induction d as [|[k x] rest IH]; simpl; intros Hd.
  - constructor; [intros [] | constructor].
  - inversion Hd as [|? ? Hnotin Hrest]; subst.
    destruct (String.eqb k key) eqn:Hk; simpl.
    + constructor; assumption.
    + constructor; [|apply IH; exact Hrest].
      intros Hin. apply keys_dict_set in Hin. destruct Hin as [->|Hin].
      * rewrite String.eqb_refl in Hk. discriminate.
      * apply Hnotin. exact Hin.
Qed.

Lemma dict_get_dict_set_same {V} (key : string) (v : V) (d : list (string * V)) :
  dict_get key (dict_set key v d) = Some v.
Proof.
  induction d as [|[k x] rest IH]; simpl.
  - rewrite String.eqb_refl. reflexivity.
  - destruct (String.eqb k key) eqn:Hk; simpl; rewrite Hk; auto.
Qed.

Lemma dict_get_dict_set_other {V} (key name : string) (v : V) (d : list (string * V)) :
  name <> key -> dict_get name (dict_set key v d) = dict_get name d.
Proof.
  intros Hne. induction d as [|[k x] rest IH]; simpl.
  - destruct (String.eqb key name) eqn:Hk; [|reflexivity].
    apply String.eqb_eq in Hk. congruence.
  - destruct (String.eqb k key) eqn:Hk; simpl.
    + apply String.eqb_eq in Hk. subst k.
      destruct (String.eqb key name) eqn:Hn; [|reflexivity].
      apply String.eqb_eq in Hn. congruence.
    + rewrite IH. reflexivity.
Qed.

Lemma dict_get_in_keys {V} (name : string) (d : list (string * V)) :
  (exists v, dict_get name d = Some v) <-> In name (keys d).
Proof.
  induction d as [|[k x] rest IH]; simpl.
  - split; [intros [v Hv]; discriminate | intros []].
  - destruct (String.eqb k name) eqn:Hk.
    + apply String.eqb_eq in Hk. subst k. split; [auto | eauto].
    + rewrite IH. split; [auto|]. intros [Heq|Hin]; [|exact Hin].
      subst k. rewrite String.eqb_refl in Hk. discriminate.
Qed.

(** ** collect_metrics *)

Lemma only_logged_refl (s : State) : only_logged s s.
Proof. repeat split. Qed.

Lemma only_logged_trans (s1 s2 s3 : State) :
  only_logged s1 s2 -> only_logged s2 s3 -> only_logged s1 s3.
Proof. unfold only_logged. intuition congruence. Qed.

Lemma only_logged_add_log (l : LogLine) (s : State) : only_logged s (add_log l s).
Proof. repeat split. Qed.

Lemma log_entries_only_logged (cs : list (string * ContainerEntry)) (s : State) :
  only_logged s (log_entries cs s).
Proof.
  unfold log_entries. revert s.
  induction cs as [|p rest IH]; intros s; simpl.
  - apply only_logged_refl.
  - eapply only_logged_trans; [apply only_logged_add_log | apply IH].
Qed.

(** Whatever the world answers or raises, the fetcher and the prober touch
    nothing but the log. *)
Lemma get_container_stats_frame (w : World) (name : string) (s : State) :
  only_logged s (snd (get_container_stats w name s)).
Proof.
  unfold get_container_stats, try_except, bind at 1, lift.
  destruct (get_container_stats_body w name) as [r|e]; simpl.
  - apply only_logged_refl.
  - destruct e; simpl;
      first [apply only_logged_add_log | apply only_logged_refl].
Qed.

Lemma check_container_health_frame (w : World) (name url : string) (s : State) :
  snd (check_container_health w name url s) = s.
Proof.
  unfold check_container_health, try_except, bind, lift, ret.
  destruct (requests_get w url) as [code|e]; [reflexivity|].
  destruct (is_Exception e); reflexivity.
Qed.

Lemma collect_containers_frame (w : World) (items : list (string * string)) :
  forall (acc : list (string * ContainerEntry)) (s : State),
    only_logged s (snd (collect_containers w items acc s)).
Proof.
  induction items as [|[name url] rest IH]; intros acc s; simpl.
  - apply only_logged_refl.
  - unfold bind at 1.
    pose proof (get_container_stats_frame w name s) as Hf.
    destruct (get_container_stats w name s) as [[[st|]|e] s1]; simpl in Hf.
    + unfold bind at 1.
      pose proof (check_container_health_frame w name url s1) as Hh.
      destruct (check_container_health w name url s1) as [[h|e] s2];
        simpl in Hh; subst s2.
      * eapply only_logged_trans; [exact Hf | apply IH].
      * exact Hf.
    + eapply only_logged_trans; [exact Hf | apply IH].
    + exact Hf.
Qed.

(** The fetcher returns the record of its try block and leaves the state
    alone, or returns None after a failure, or lets an exception through
    that is not an error. *)
Lemma get_container_stats_cases (w : World) (name : string) (s : State) :
  (exists r, get_container_stats_body w name = Ret r /\
             get_container_stats w name s = (Ret (Some r), s)) \/
  (exists s1, fetch_fails w name = true /\
              get_container_stats w name s = (Ret None, s1)) \/
  (exists e, is_Exception e = false /\
             get_container_stats w name s = (Raise e, s)).
Proof.
  unfold fetch_fails, get_container_stats, try_except, bind at 1, lift.
  destruct (get_container_stats_body w name) as [r|e].
  - left. exists r. split; reflexivity.
  - right. destruct e; simpl;
      first [ left; eexists; split; reflexivity
            | right; eexists; split; [|reflexivity]; reflexivity ].
Qed.

Lemma check_container_health_cases (w : World) (name url : string) (s : State) :
  (exists h, check_container_health w name url s = (Ret h, s)) \/
  (exists e, check_container_health w name url s = (Raise e, s)).
Proof.
  pose proof (check_container_health_frame w name url s) as Hf.
  destruct (check_container_health w name url s) as [[h|e] s1];
    simpl in Hf; subst s1; [left | right]; eexists; reflexivity.
Qed.

(** Lines 135-139: when the loop returns, the dict it has filled holds,
    besides what it held before, exactly the targets whose fetch did not
    fail, each with the record that was fetched. *)
Lemma collect_containers_entries (w : World) (items : list (string * string)) :
  forall (acc cs : list (string * ContainerEntry)) (s s' : State),
    collect_containers w items acc s = (Ret cs, s') ->
    (forall name,
        In name (keys cs) <->
        In name (keys acc) \/ (In name (keys items) /\ fetch_fails w name = false)) /\
    (forall name e,
        dict_get name cs = Some e ->
        dict_get name acc = Some e \/
        get_container_stats_body w name = Ret (entry_stats e)) /\
    (NoDup (keys acc) -> NoDup (keys cs)).
Proof.
  induction items as [|[name url] rest IH]; intros acc cs s s'; simpl.
  - unfold ret. intros [= <- <-].
    split; [intros n; tauto|]. split; auto.
  - destruct (get_container_stats_cases w name s)
      as [[r [Hbody Hres]] | [[s1 [Hfail Hres]] | [e [_ Hres]]]];
      unfold bind at 1; rewrite Hres.
    + destruct (check_container_health_cases w name url s) as [[h Hh]|[e Hh]];
        unfold bind at 1; rewrite Hh; [|discriminate].
      intros Hrun.
      destruct (IH _ _ _ _ Hrun) as [Hkeys [Hent Hnodup]].
      assert (Hok : fetch_fails w name = false)
        by (unfold fetch_fails; rewrite Hbody; reflexivity).
      split; [|split].
      * intros n. rewrite Hkeys, keys_dict_set. simpl.
        split.
        -- intros [[->|Hin]|[Hin Hf]]; auto.
        -- intros [Hin|[[<-|Hin] Hf]]; auto.
      * intros n e He. destruct (Hent n e He) as [Hacc|Hb]; [|auto].
        destruct (String.eqb n name) eqn:Hn.
        -- apply String.eqb_eq in Hn. subst n.
           rewrite dict_get_dict_set_same in Hacc. injection Hacc as <-.
           right. exact Hbody.
        -- apply String.eqb_neq in Hn.
           rewrite (dict_get_dict_set_other _ _ _ _ Hn) in Hacc. auto.
      * intros Hacc. apply Hnodup. apply NoDup_keys_dict_set. exact Hacc.
    + intros Hrun.
      destruct (IH _ _ _ _ Hrun) as [Hkeys [Hent Hnodup]].
      split; [|split; [exact Hent | exact Hnodup]].
      intros n. rewrite Hkeys. simpl. split.
      * intros [Hin|[Hin Hf]]; auto.
      * intros [Hin|[[<-|Hin] Hf]]; auto. congruence.
    + discriminate.
Qed.

(** The loop returns when the clients raise nothing but errors. *)
Lemma collect_containers_returns (w : World) (items : list (string * string)) :
  forall (acc : list (string * ContainerEntry)) (s : State),
    world_errors_only w items = true ->
    exists cs s', collect_containers w items acc s = (Ret cs, s').
Proof.
  induction items as [|[name url] rest IH]; intros acc s Hw.
  - exists acc, s. reflexivity.
  - simpl in Hw. apply andb_prop in Hw. destruct Hw as [Hhere Hrest].
    apply andb_prop in Hhere. destruct Hhere as [Hdocker Hhttp].
    simpl.
    destruct (get_container_stats_returns_option w name s Hdocker)
      as [o [s1 Hres]].
    rewrite (bind_eq _ _ _ _ _ Hres). destruct o as [st|].
    + rewrite (bind_eq _ _ _ _ _ (check_container_health_value w name url s1 Hhttp)).
      apply IH. exact Hrest.
    + apply IH. exact Hrest.
Qed.

Lemma get_system_stats_returns (w : World) :
  get_system_stats w
  = Ret {| system_cpu_percent := psutil_cpu_percent w;
           system_memory_percent := psutil_memory_percent w;
           system_memory_available_gb :=
             round2 (inject_Z (psutil_memory_available w) / inject_Z (1024 ^ 3))%Q;
           system_timestamp := now_system w |}.
Proof. reflexivity. Qed.

(** The fetch of a target succeeded: in terms of the try block and in terms
    of what the fetcher returns. *)
Lemma fetch_succeeded_iff (w : World) (name : string) (s : State) :
  fetch_fails w name = false <->
  exists r, fst (get_container_stats w name s) = Ret (Some r).
Proof.
  unfold fetch_fails. split.
  - destruct (get_container_stats_body w name) as [r|e] eqn:Hb; [|discriminate].
    intros _. exists r.
    rewrite (get_container_stats_on_value w name s r Hb). reflexivity.
  - intros [r Hr].
    destruct (get_container_stats w name s) as [o s'] eqn:Hres.
    simpl in Hr. subst o.
    apply get_container_stats_some in Hres. destruct Hres as [Hb _].
    rewrite Hb. reflexivity.
Qed.

(** One tick that returns: what [collect_metrics] leaves behind. *)
Lemma collect_metrics_spec (w : World) (s s' : State) :
  collect_metrics w s = (Ret tt, s') ->
  exists m,
    data s' = data s ++ [m] /\
    calls s' = calls s ++ [CallCollect] /\
    clock s' = (clock s + tick_duration w)%Q /\
    interval s' = interval s /\ running s' = running s /\
    containers s' = containers s /\ files s' = files s /\
    metrics_timestamp m = now_tick w /\
    get_system_stats w = Ret (metrics_system m) /\
    (forall name,
        In name (keys (metrics_containers m)) <->
        In name (keys (containers s)) /\ fetch_fails w name = false) /\
    (forall name e,
        dict_get name (metrics_containers m) = Some e ->
        get_container_stats_body w name = Ret (entry_stats e)) /\
    NoDup (keys (metrics_containers m)).
Proof.
  unfold collect_metrics.
  rewrite bind_modify. unfold bind at 1, lift.
  rewrite get_system_stats_returns.
  unfold bind at 1, gets. unfold bind at 1.
  pose proof (collect_containers_frame w (containers (add_call CallCollect s)) []
                (add_call CallCollect s)) as Hlog.
  destruct (collect_containers w (containers (add_call CallCollect s)) []
              (add_call CallCollect s)) as [[cs|e] s1] eqn:Hrun;
    [|discriminate].
  destruct (collect_containers_entries w _ _ _ _ _ Hrun) as [Hkeys [Hent Hnodup]].
  repeat rewrite bind_modify. unfold modify.
  simpl in Hlog. destruct Hlog as [Hi [Hd [Hr [Hc [Hclk [Hf Hcalls]]]]]].
  match goal with
  | |- context [log_entries cs ?x] => remember x as s2 eqn:Hs2
  end.
  destruct (log_entries_only_logged cs s2)
    as [Hi2 [Hd2 [Hr2 [Hc2 [Hclk2 [Hf2 Hcalls2]]]]]].
  intros [= <-]. eexists.
  cbn [set_clock data calls clock interval running containers files].
  rewrite Hd2, Hcalls2, Hclk2, Hi2, Hr2, Hc2, Hf2. subst s2.
  cbn [add_log set_data data calls clock interval running containers files].
  rewrite Hd, Hcalls, Hclk, Hi, Hr, Hc, Hf.
  cbn [add_call data calls clock interval running containers files].
  repeat (split; [reflexivity|]).
  cbn [metrics_containers].
  split; [|split].
  - intros name. rewrite Hkeys. simpl. tauto.
  - intros name e He. destruct (Hent name e He) as [Habs|Hb]; [discriminate | exact Hb].
  - apply Hnodup. constructor.
Qed.

(** A tick returns when the clients raise nothing but errors. *)
Lemma collect_metrics_returns (w : World) (s : State) :
  world_errors_only w (containers s) = true ->
  exists s', collect_metrics w s = (Ret tt, s').
Proof.
  intros Hw. unfold collect_metrics.
  rewrite bind_modify. unfold bind at 1, lift.
  rewrite get_system_stats_returns.
  unfold bind at 1, gets.
  destruct (collect_containers_returns w (containers (add_call CallCollect s)) []
              (add_call CallCollect s) Hw) as [cs [s1 Hrun]].
  rewrite (bind_eq _ _ _ _ _ Hrun).
  repeat rewrite bind_modify. unfold modify. eexists. reflexivity.
Qed.

(** The two together. *)
Lemma collect_metrics_total (w : World) (s : State) :
  world_errors_only w (containers s) = true ->
  exists m s',
    collect_metrics w s = (Ret tt, s') /\
    data s' = data s ++ [m] /\
    calls s' = calls s ++ [CallCollect] /\
    clock s' = (clock s + tick_duration w)%Q /\
    interval s' = interval s /\ running s' = running s /\
    containers s' = containers s.
Proof.
  intros Hw. destruct (collect_metrics_returns w s Hw) as [s' Hrun].
  destruct (collect_metrics_spec w s s' Hrun)
    as [m [Hd [Hc [Hclk [Hi [Hr [Hcfg _]]]]]]].
  exists m, s'. repeat split; assumption.
Qed.

(** C5. Every tick that returns appends one snapshot; it has the one host
    record that [get_system_stats] built, and an entry for a target exactly
    when the target is configured and its fetch returned a record that
    tick: a target whose fetch failed has no entry at all, no target has
    two, and the entry of a target holds the record that was fetched.  A
    tick does return when the docker and HTTP clients raise nothing but
    errors. *)
Theorem snapshot_entries_iff_fetch_succeeded (w : World) (s : State) :
  (forall s',
      collect_metrics w s = (Ret tt, s') ->
      exists m,
        data s' = data s ++ [m] /\
        get_system_stats w = Ret (metrics_system m) /\
        (forall name,
            (exists e, dict_get name (metrics_containers m) = Some e) <->
            In name (keys (containers s)) /\
            exists r, fst (get_container_stats w name s) = Ret (Some r)) /\
        (forall name e,
            dict_get name (metrics_containers m) = Some e ->
            fst (get_container_stats w name s) = Ret (Some (entry_stats e))) /\
        NoDup (keys (metrics_containers m))) /\
  (world_errors_only w (containers s) = true ->
   exists s', collect_metrics w s = (Ret tt, s')).
Proof.
  split; [|apply collect_metrics_returns].
  intros s' Hrun.
  destruct (collect_metrics_spec w s s' Hrun)
    as [m [Hd [_ [_ [_ [_ [_ [_ [_ [Hsys [Hkeys [Hent Hnodup]]]]]]]]]]]].
  exists m. split; [exact Hd|]. split; [exact Hsys|].
  split; [|split; [|exact Hnodup]].
  - intros name. rewrite dict_get_in_keys, Hkeys, (fetch_succeeded_iff w name s).
    tauto.
  - intros name e He.
    rewrite (get_container_stats_on_value w name s _ (Hent name e He)).
    reflexivity.
Qed.

(** C5 in the sample world: of the three configured targets only the node
    container, the one whose fetch succeeds, is in the snapshot. *)
Lemma snapshot_entries_iff_fetch_succeeded_witness :
  world_errors_only (sample_world 0) (containers (init 10 0)) = true /\
  exists m s',
    collect_metrics (sample_world 0) (init 10 0) = (Ret tt, s') /\
    data s' = [m] /\
    keys (metrics_containers m) = ["node-nextjs-app"].
Proof.
  split; [reflexivity|].
  destruct (snapshot_entries_iff_fetch_succeeded (sample_world 0) (init 10 0))
    as [Hsnap Hreturns].
  destruct (Hreturns eq_refl) as [s' Hrun].
  destruct (Hsnap s' Hrun) as [m [Hd _]].
  exists m, s'. split; [exact Hrun|]. split; [exact Hd|].
  assert (Hs : snd (collect_metrics (sample_world 0) (init 10 0)) = s')
    by (rewrite Hrun; reflexivity).
  assert (Hm : data (snd (collect_metrics (sample_world 0) (init 10 0))) = [m])
    by (rewrite Hs; exact Hd).
  vm_compute in Hm. injection Hm as <-. reflexivity.
Defined.

(** ** save_data *)

Lemma flatten_entry_app (acc : list Row) (entry : Metrics) :
  flatten_entry acc entry = acc ++ rows_of entry.
Proof.
  unfold flatten_entry, rows_of.
  generalize (metrics_containers entry) as cs. intros cs. revert acc.
  induction cs as [|p rest IH]; intros acc; simpl.
  - rewrite app_nil_r. reflexivity.
  - rewrite IH, <- app_assoc. reflexivity.
Qed.

Lemma fold_flatten_entry (d : list Metrics) (acc : list Row) :
  fold_left flatten_entry d acc = acc ++ flat_map rows_of d.
Proof.
  revert acc. induction d as [|entry rest IH]; intros acc; simpl.
  - rewrite app_nil_r. reflexivity.
  - rewrite IH, flatten_entry_app, <- app_assoc. reflexivity.
Qed.

Lemma flatten_flat_map (d : list Metrics) : flatten d = flat_map rows_of d.
Proof. unfold flatten. rewrite fold_flatten_entry. reflexivity. Qed.

(** C6. Flattening a series gives, snapshot after snapshot, one row per
    entry of the snapshot: the number of rows is the sum over the
    snapshots of their numbers of entries, and every row carries the
    timestamp and the three host readings of the snapshot it comes from. *)
Theorem flatten_row_count (d : list Metrics) :
  List.length (flatten d)
  = list_sum (map (fun m => List.length (metrics_containers m)) d) /\
  flatten d = flat_map rows_of d /\
  (forall m row,
      In m d -> In row (rows_of m) ->
      In row (flatten d) /\
      row_timestamp row = metrics_timestamp m /\
      row_system_cpu_percent row = system_cpu_percent (metrics_system m) /\
      row_system_memory_percent row = system_memory_percent (metrics_system m) /\
      row_system_memory_available_gb row
      = system_memory_available_gb (metrics_system m)) /\
  (forall row,
      In row (flatten d) -> exists m, In m d /\ In row (rows_of m)).
Proof.
  rewrite flatten_flat_map. split; [|split; [reflexivity|split]].
  - induction d as [|m rest IH]; simpl; [reflexivity|].
    rewrite length_app, IH. unfold rows_of. rewrite length_map. reflexivity.
  - intros m row Hm Hrow. split.
    + apply in_flat_map. exists m. split; assumption.
    + unfold rows_of in Hrow. apply in_map_iff in Hrow.
      destruct Hrow as [p [<- _]]. repeat split.
  - intros row Hrow. apply in_flat_map in Hrow. exact Hrow.
Qed.

(** C6 on the series of two ticks in the sample world, each with the node
    container only: two rows, both with the timestamp of their snapshot. *)
Lemma flatten_row_count_witness :
  List.length (flatten sample_series) = 2%nat /\
  forall row,
    In row (flatten sample_series) -> row_timestamp row = "2024-01-01T00:00:00".
Proof.
  destruct (flatten_row_count sample_series) as [Hlen [_ [Hfields Hfrom]]].
  split; [rewrite Hlen; reflexivity|].
  intros row Hin. destruct (Hfrom row Hin) as [m [Hm Hrow]].
  destruct (Hfields m row Hm Hrow) as [_ [Hts _]]. rewrite Hts.
  destruct Hm as [<-|[<-|[]]]; reflexivity.
Defined.

(** What [save_data] does: it returns, writes files and logs, and changes
    nothing else. *)
Lemma save_data_spec (filename : option string) (s : State) :
  exists r s' new,
    save_data filename s = (Ret r, s') /\
    data s' = data s /\
    files s' = files s ++ new /\
    calls s' = calls s ++ [CallSave] /\
    interval s' = interval s /\ running s' = running s /\
    containers s' = containers s /\ clock s' = clock s /\
    (data s = [] -> r = None /\ new = [] /\ logs s' = logs s ++ [LogNoData]) /\
    (data s <> [] ->
     exists fname,
       new = WriteJson (JsonPath fname) (data s) ::
             match flatten (data s) with
             | [] => []
             | _ :: _ => [WriteCsv (CsvPath fname) (flatten (data s))]
             end /\
       r = Some (match flatten (data s) with
                 | [] => None
                 | _ :: _ => Some (CsvPath fname)
                 end, JsonPath fname)).
Proof.
  unfold save_data. rewrite bind_modify. unfold bind at 1, gets. simpl.
  destruct (data s) as [|m rest] eqn:Hd.
  - rewrite bind_modify. unfold ret.
    eexists. eexists. exists []. split; [reflexivity|]. simpl.
    rewrite app_nil_r.
    repeat (split; [first [reflexivity | exact Hd]|]).
    split; [intros _; repeat split | intros H; contradiction].
  - assert (Hfname : exists fname,
               (match filename with
                | Some f => ret (Custom f)
                | None => default_filename
                end) (add_call CallSave s) = (Ret fname, add_call CallSave s)).
    { destruct filename; eexists; reflexivity. }
    destruct Hfname as [fname Hfname].
    rewrite (bind_eq _ _ _ _ _ Hfname). rewrite bind_modify.
    destruct (flatten (m :: rest)) as [|row rows] eqn:Hflat.
    + unfold ret. eexists. eexists. eexists. split; [reflexivity|]. simpl.
      repeat (split; [first [reflexivity | exact Hd]|]).
      split; [discriminate|]. intros _. exists fname. split; reflexivity.
    + repeat rewrite bind_modify. unfold ret.
      eexists. eexists. eexists. split; [reflexivity|]. simpl.
      rewrite <- app_assoc. simpl.
      repeat (split; [first [reflexivity | exact Hd]|]).
      split; [discriminate|]. intros _. exists fname. split; reflexivity.
Qed.

(** C7. With an empty series [save_data] writes no file and returns None,
    which in Python stands for both paths, whatever file name it is given;
    it logs the warning. *)
Theorem save_data_empty (filename : option string) (s : State) :
  data s = [] ->
  exists s',
    save_data filename s = (Ret None, s') /\
    files s' = files s /\
    logs s' = logs s ++ [LogNoData].
Proof.
  intros Hd.
  destruct (save_data_spec filename s)
    as [r [s' [new [Hrun [_ [Hf [_ [_ [_ [_ [_ [Hempty _]]]]]]]]]]]].
  destruct (Hempty Hd) as [-> [-> Hlog]].
  exists s'. split; [exact Hrun|].
  split; [rewrite Hf; apply app_nil_r | exact Hlog].
Qed.

(** C7 on a monitor that has just been built. *)
Lemma save_data_empty_witness :
  exists s',
    save_data None (init 10 0) = (Ret None, s') /\ files s' = [].
Proof.
  destruct (save_data_empty None (init 10 0) eq_refl) as [s' [Hrun [Hf _]]].
  exists s'. split; [exact Hrun | exact Hf].
Defined.

(** C9. [save_data] leaves [self.data] as it was, so a second call with no
    tick in between writes files with the same contents as the first:
    the whole series again, not an emptied one. *)
Theorem save_data_keeps_data (f1 f2 : option string) (s : State) :
  exists r1 s1 new1 r2 s2 new2,
    save_data f1 s = (Ret r1, s1) /\
    data s1 = data s /\
    files s1 = files s ++ new1 /\
    save_data f2 s1 = (Ret r2, s2) /\
    data s2 = data s /\
    files s2 = files s1 ++ new2 /\
    map write_content new2 = map write_content new1 /\
    (data s <> [] -> In (inl (data s)) (map write_content new2)).
Proof.
  destruct (save_data_spec f1 s)
    as [r1 [s1 [new1 [Hrun1 [Hd1 [Hf1 [_ [_ [_ [_ [_ [He1 Hn1]]]]]]]]]]]].
  destruct (save_data_spec f2 s1)
    as [r2 [s2 [new2 [Hrun2 [Hd2 [Hf2 [_ [_ [_ [_ [_ [He2 Hn2]]]]]]]]]]]].
  exists r1, s1, new1, r2, s2, new2.
  split; [exact Hrun1|]. split; [exact Hd1|]. split; [exact Hf1|].
  split; [exact Hrun2|]. split; [rewrite Hd2; exact Hd1|]. split; [exact Hf2|].
  rewrite Hd1 in He2, Hn2.
  destruct (data s) as [|m rest] eqn:Hd.
  - destruct (He1 eq_refl) as [_ [-> _]].
    destruct (He2 eq_refl) as [_ [-> _]].
    split; [reflexivity | intros H; contradiction].
  - destruct Hn1 as [fn1 [-> _]]; [discriminate|].
    destruct Hn2 as [fn2 [-> _]]; [discriminate|].
    split.
    + destruct (flatten (m :: rest)); reflexivity.
    + intros _. left. reflexivity.
Qed.

(** C9 on a monitor holding the sample series: the second flush writes the
    two snapshots again. *)
Lemma save_data_keeps_data_witness :
  exists r1 s1 r2 s2 new2,
    save_data None (set_data sample_series (init 10 0)) = (Ret r1, s1) /\
    save_data None s1 = (Ret r2, s2) /\
    data s2 = sample_series /\
    files s2 = files s1 ++ new2 /\
    In (inl sample_series) (map write_content new2).
Proof.
  destruct (save_data_keeps_data None None (set_data sample_series (init 10 0)))
    as [r1 [s1 [new1 [r2 [s2 [new2 [H1 [_ [_ [H2 [Hd [Hf [_ Hin]]]]]]]]]]]]].
  exists r1, s1, r2, s2, new2.
  split; [exact H1|]. split; [exact H2|]. split; [exact Hd|]. split; [exact Hf|].
  apply Hin. discriminate.
Defined.

(** ** Counting calls *)

Lemma ticks_calls_app (s s' : State) (l : list Call) :
  calls s' = calls s ++ l ->
  ticks s' = (ticks s + List.length (filter is_collect l))%nat.
Proof. intros H. unfold ticks. rewrite H, filter_app, length_app. reflexivity. Qed.

Lemma flushes_calls_app (s s' : State) (l : list Call) :
  calls s' = calls s ++ l ->
  flushes s' = (flushes s + List.length (filter is_save l))%nat.
Proof. intros H. unfold flushes. rewrite H, filter_app, length_app. reflexivity. Qed.

(** ** signal_handler, sleep and the finally clause *)

Lemma signal_handler_spec (s : State) :
  exists s',
    signal_handler s = (Raise (SystemExit 0), s') /\
    calls s' = calls s ++ [CallSave] /\
    data s' = data s /\
    running s' = false.
Proof.
  unfold signal_handler. repeat rewrite bind_modify.
  destruct (save_data_spec None (set_running false (add_log LogShutdownSignal s)))
    as [r [s' [new [Hrun [Hd [_ [Hc [_ [Hr _]]]]]]]]].
  rewrite (bind_eq _ _ _ _ _ Hrun). unfold raise.
  exists s'. split; [reflexivity|]. split; [exact Hc|]. split; [exact Hd | exact Hr].
Qed.

Lemma finally_clause_spec (s : State) :
  exists s',
    finally_clause s = (Ret tt, s') /\
    calls s' = calls s ++ [CallSave] /\
    data s' = data s /\
    running s' = false.
Proof.
  unfold finally_clause. rewrite bind_modify.
  destruct (save_data_spec None (set_running false s))
    as [r [s' [new [Hrun [Hd [_ [Hc [_ [Hr _]]]]]]]]].
  rewrite (bind_eq _ _ _ _ _ Hrun). unfold ret.
  exists s'. split; [reflexivity|]. split; [exact Hc|]. split; [exact Hd | exact Hr].
Qed.

Lemma sleep_done (s : State) :
  0 <= interval s ->
  sleep SleepDone s
  = (Ret tt, set_clock (clock s + inject_Z (interval s))%Q (add_call CallSleep s)).
Proof.
  intros Hi. unfold sleep. rewrite bind_modify. unfold bind, gets. simpl.
  replace (Z.ltb (interval s) 0) with false by (symmetry; apply Z.ltb_ge; exact Hi).
  reflexivity.
Qed.

Lemma sleep_signal (s : State) :
  0 <= interval s ->
  sleep SleepSignal s = signal_handler (add_call CallSleep s).
Proof.
  intros Hi. unfold sleep. rewrite bind_modify. unfold bind at 1, gets. simpl.
  replace (Z.ltb (interval s) 0) with false by (symmetry; apply Z.ltb_ge; exact Hi).
  reflexivity.
Qed.

(** ** The loop of start_monitoring *)

Lemma duration_reached_false (d : Z) (start_time now : Q) :
  (now - start_time < inject_Z d)%Q ->
  duration_reached (Some d) start_time now = false.
Proof.
  intros H. unfold duration_reached.
  destruct (Qle_bool (inject_Z d) (now - start_time)) eqn:Hle.
  - apply Qle_bool_iff in Hle. exfalso. apply (Qlt_not_le _ _ H). exact Hle.
  - apply andb_false_r.
Qed.

Lemma duration_reached_true (d : Z) (start_time now : Q) :
  d <> 0 ->
  (inject_Z d <= now - start_time)%Q ->
  duration_reached (Some d) start_time now = true.
Proof.
  intros Hd H. unfold duration_reached.
  apply Z.eqb_neq in Hd. rewrite Hd.
  apply Qle_bool_iff in H. rewrite H. reflexivity.
Qed.

(** An iteration that completes: one tick, one sleep, and the loop goes on. *)
Lemma loop_continue (duration : option Z) (start_time : Q) (w : World)
  (rest : list TickEvent) (s : State) :
  running s = true ->
  world_errors_only w (containers s) = true ->
  0 <= interval s ->
  duration_reached duration start_time (clock s + tick_duration w)%Q = false ->
  exists s2,
    monitoring_loop duration start_time (completed w :: rest) s
    = monitoring_loop duration start_time rest s2 /\
    running s2 = true /\
    containers s2 = containers s /\
    interval s2 = interval s /\
    clock s2 = (clock s + tick_duration w + inject_Z (interval s))%Q /\
    calls s2 = calls s ++ [CallCollect; CallSleep].
Proof.
  intros Hr Hw Hi Hdur.
  destruct (collect_metrics_total w s Hw)
    as [m [s1 [Hrun [_ [Hc [Hclk [Hi1 [Hr1 Hcfg]]]]]]]].
  exists (set_clock (clock s1 + inject_Z (interval s1))%Q (add_call CallSleep s1)).
  split.
  - rewrite <- Hclk in Hdur. simpl. rewrite Hr, Hrun, Hdur.
    rewrite sleep_done by (rewrite Hi1; exact Hi). reflexivity.
  - simpl. rewrite Hr1, Hcfg, Hi1, Hclk, Hc, <- app_assoc. simpl.
    repeat split; assumption.
Qed.

(** The tick after which the duration has elapsed ends the loop. *)
Lemma loop_break (duration : option Z) (start_time : Q) (w : World)
  (sl : SleepEvent) (rest : list TickEvent) (s : State) :
  running s = true ->
  world_errors_only w (containers s) = true ->
  duration_reached duration start_time (clock s + tick_duration w)%Q = true ->
  exists s1,
    monitoring_loop duration start_time (Tick w sl :: rest) s = Some (Ret tt, s1) /\
    calls s1 = calls s ++ [CallCollect].
Proof.
  intros Hr Hw Hdur.
  destruct (collect_metrics_total w s Hw) as [m [s1 [Hrun [_ [Hc [Hclk _]]]]]].
  exists (add_log LogDurationCompleted s1). split.
  - rewrite <- Hclk in Hdur. simpl. rewrite Hr, Hrun, Hdur. reflexivity.
  - simpl. exact Hc.
Qed.

(** A signal in an iteration: the handler saves, then raises SystemExit. *)
Lemma loop_signal (duration : option Z) (start_time : Q) (ev : TickEvent)
  (rest : list TickEvent) (s : State) :
  running s = true ->
  0 <= interval s ->
  signal_event (containers s) ev = true ->
  (forall w, duration_reached duration start_time (clock s + tick_duration w)%Q = false) ->
  exists s1,
    monitoring_loop duration start_time (ev :: rest) s
    = Some (Raise (SystemExit 0), s1) /\
    ticks s1 = (ticks s + signal_ticks ev)%nat /\
    flushes s1 = (flushes s + 1)%nat /\
    running s1 = false.
Proof.
  intros Hr Hi Hev Hdur. destruct ev as [w sl|].
  - destruct sl; simpl in Hev; try discriminate.
    destruct (collect_metrics_total w s Hev)
      as [m [s1 [Hrun [_ [Hc [Hclk [Hi1 _]]]]]]].
    destruct (signal_handler_spec (add_call CallSleep s1)) as [s2 [Hsig [Hc2 [_ Hr2]]]].
    exists s2. split.
    + specialize (Hdur w). rewrite <- Hclk in Hdur. simpl. rewrite Hr, Hrun, Hdur.
      rewrite sleep_signal by (rewrite Hi1; exact Hi). rewrite Hsig. reflexivity.
    + simpl in Hc2. rewrite Hc, <- !app_assoc in Hc2. simpl in Hc2.
      rewrite (ticks_calls_app s s2 _ Hc2), (flushes_calls_app s s2 _ Hc2).
      repeat split; [exact Hr2].
  - destruct (signal_handler_spec s) as [s1 [Hsig [Hc [_ Hr1]]]].
    exists s1. split.
    + simpl. rewrite Hr, Hsig. reflexivity.
    + rewrite (ticks_calls_app s s1 _ Hc), (flushes_calls_app s s1 _ Hc).
      simpl. repeat split; [exact Hr1].
Qed.

Lemma start_monitoring_prologue_spec (duration : option Z) (s : State) :
  running (start_monitoring_prologue duration s) = true /\
  calls (start_monitoring_prologue duration s) = calls s /\
  containers (start_monitoring_prologue duration s) = containers s /\
  interval (start_monitoring_prologue duration s) = interval s /\
  clock (start_monitoring_prologue duration s) = clock s /\
  data (start_monitoring_prologue duration s) = data s.
Proof.
  unfold start_monitoring_prologue.
  destruct duration as [d|]; [destruct (Z.eqb d 0)|]; repeat split.
Qed.

(** However the loop ends, the finally clause runs [save_data] once; a
    KeyboardInterrupt is swallowed, any other exception goes on to the
    caller after it. *)
Lemma start_monitoring_finish (duration : option Z) (script : list TickEvent)
  (s s2 : State) (o : outcome unit) :
  monitoring_loop duration (clock s) script (start_monitoring_prologue duration s)
  = Some (o, s2) ->
  exists s3,
    start_monitoring duration script s
    = Some (match o with
            | Raise KeyboardInterrupt => Ret tt
            | _ => o
            end, s3) /\
    ticks s3 = ticks s2 /\
    flushes s3 = (flushes s2 + 1)%nat /\
    running s3 = false.
Proof.
  intros Hloop. unfold start_monitoring. rewrite Hloop.
  unfold try_finally, try_except.
  assert (Hfin : forall (x : State) (o' : outcome unit),
             calls x = calls s2 ->
             exists s3,
               Some (match finally_clause x with
                     | (Ret _, s'') => (o', s'')
                     | (Raise e, s'') => (Raise e, s'')
                     end) = Some (o', s3) /\
               ticks s3 = ticks s2 /\
               flushes s3 = (flushes s2 + 1)%nat /\
               running s3 = false).
  { intros x o' Hx.
    destruct (finally_clause_spec x) as [s3 [Hrun [Hc [_ Hr]]]].
    exists s3. rewrite Hrun. split; [reflexivity|].
    rewrite Hx in Hc.
    rewrite (ticks_calls_app s2 s3 _ Hc), (flushes_calls_app s2 s3 _ Hc). simpl.
    repeat split; [lia | exact Hr]. }
  destruct o as [[]|e]; [apply Hfin; reflexivity|].
  destruct e; apply Hfin; reflexivity.
Qed.

(** Iterations that complete, then a signal: the loop ends there. *)
Lemma loop_completed_then_signal (start_time : Q) (sig : TickEvent)
  (rest : list TickEvent) (pre : list World) :
  forall s : State,
    running s = true ->
    0 <= interval s ->
    forallb (fun w => world_errors_only w (containers s)) pre = true ->
    signal_event (containers s) sig = true ->
    exists s1,
      monitoring_loop None start_time (map completed pre ++ sig :: rest) s
      = Some (Raise (SystemExit 0), s1) /\
      ticks s1 = (ticks s + List.length pre + signal_ticks sig)%nat /\
      flushes s1 = (flushes s + 1)%nat /\
      running s1 = false.
Proof.
  induction pre as [|w pre IH]; intros s Hr Hi Hpre Hsig.
  - destruct (loop_signal None start_time sig rest s Hr Hi Hsig (fun _ => eq_refl))
      as [s1 [Hrun [Ht [Hf Hr1]]]].
    exists s1. split; [exact Hrun|]. split; [rewrite Ht; simpl; lia|].
    split; assumption.
  - simpl in Hpre. apply andb_prop in Hpre. destruct Hpre as [Hw Hpre].
    destruct (loop_continue None start_time w (map completed pre ++ sig :: rest)
                s Hr Hw Hi eq_refl)
      as [s2 [Hstep [Hr2 [Hcfg [Hi2 [_ Hc2]]]]]].
    destruct (IH s2 Hr2) as [s1 [Hrun [Ht [Hf Hr1]]]].
    + rewrite Hi2. exact Hi.
    + rewrite Hcfg. exact Hpre.
    + rewrite Hcfg. exact Hsig.
    + exists s1. split; [simpl map; simpl app; rewrite Hstep; exact Hrun|].
      rewrite (ticks_calls_app s s2 _ Hc2) in Ht.
      rewrite (flushes_calls_app s s2 _ Hc2) in Hf. simpl in Ht, Hf.
      split; [rewrite Ht; simpl; lia|]. split; [rewrite Hf; lia | exact Hr1].
Qed.

(** C1. The claim does not hold of the code.  When SIGINT or SIGTERM is
    delivered in the loop, after any number of completed iterations, also
    none, no further tick is made and the process exits with SystemExit(0),
    but [save_data] has then been called twice, not once: by
    [signal_handler], and again by the finally clause of [start_monitoring]
    that the SystemExit passes through. *)
Theorem signal_mid_loop_saves_twice (pre : list World) (sig : TickEvent)
  (rest : list TickEvent) (s : State) :
  0 <= interval s ->
  forallb (fun w => world_errors_only w (containers s)) pre = true ->
  signal_event (containers s) sig = true ->
  exists s',
    start_monitoring None (map completed pre ++ sig :: rest) s
    = Some (Raise (SystemExit 0), s') /\
    ticks s' = (ticks s + List.length pre + signal_ticks sig)%nat /\
    flushes s' = (flushes s + 2)%nat /\
    running s' = false.
Proof.
  intros Hi Hpre Hsig.
  destruct (start_monitoring_prologue_spec None s)
    as [Hr0 [Hc0 [Hcfg0 [Hi0 _]]]].
  destruct (loop_completed_then_signal (clock s) sig rest pre
              (start_monitoring_prologue None s) Hr0)
    as [s1 [Hloop [Ht [Hf _]]]].
  - rewrite Hi0. exact Hi.
  - rewrite Hcfg0. exact Hpre.
  - rewrite Hcfg0. exact Hsig.
  - destruct (start_monitoring_finish None _ s s1 _ Hloop)
      as [s3 [Hrun [Ht3 [Hf3 Hr3]]]].
    exists s3. split; [exact Hrun|].
    unfold ticks, flushes in *. rewrite Hc0 in Ht, Hf.
    split; [rewrite Ht3; exact Ht|]. split; [rewrite Hf3, Hf; lia | exact Hr3].
Qed.

(** C1 at a run of one completed iteration followed by a tick during whose
    sleep SIGTERM arrives: two ticks, two calls of [save_data]. *)
Lemma signal_mid_loop_saves_twice_witness :
  exists s',
    start_monitoring None
      [completed (sample_world 1); Tick (sample_world 1) SleepSignal]
      (init 10 0)
    = Some (Raise (SystemExit 0), s') /\
    ticks s' = 2%nat /\
    flushes s' = 2%nat.
Proof.
  destruct (signal_mid_loop_saves_twice [sample_world 1]
              (Tick (sample_world 1) SleepSignal) [] (init 10 0))
    as [s' [Hrun [Ht [Hf _]]]]; try reflexivity.
  - simpl. lia.
  - exists s'. split; [exact Hrun|]. split; [exact Ht | exact Hf].
Defined.

(** C2, as stated, fails.  With duration 30, interval 10 and ticks that
    take no time, the ticks are at t = 0, 10, 20 and the check after the
    third one sees 20 seconds elapsed, not 30: the loop goes on (a script of
    three iterations leaves it running) and a fourth tick is made. *)
Lemma three_ticks_do_not_end_the_run :
  duration_reached (Some 30) 0 20 = false /\
  start_monitoring (Some 30)
    [completed (sample_world 0); completed (sample_world 0);
     completed (sample_world 0)] (init 10 0) = None /\
  exists s',
    start_monitoring (Some 30)
      [completed (sample_world 0); completed (sample_world 0);
       completed (sample_world 0); completed (sample_world 0)] (init 10 0)
    = Some (Ret tt, s') /\
    ticks s' = 4%nat /\ ticks s' <> 3%nat /\ flushes s' = 1%nat.
Proof.
  split; [reflexivity|]. split; [vm_compute; reflexivity|].
  eexists. split; [vm_compute; reflexivity|].
  split; [reflexivity|]. split; [discriminate | reflexivity].
Qed.

(** C2, amended.  With duration 30 and interval 10, when the first three
    ticks take less than 10 seconds together (none at all for ticks at
    t = 0, 10, 20, 30), the run makes exactly 4 ticks: the duration check
    first succeeds after the fourth tick; then [save_data] is called once
    and [start_monitoring] returns. *)
Theorem thirty_seconds_take_four_ticks (w1 w2 w3 w4 : World) (sl : SleepEvent)
  (rest : list TickEvent) (s : State) :
  interval s = 10 ->
  forallb (fun w => world_errors_only w (containers s)) [w1; w2; w3; w4] = true ->
  (0 <= tick_duration w1)%Q -> (0 <= tick_duration w2)%Q ->
  (0 <= tick_duration w3)%Q -> (0 <= tick_duration w4)%Q ->
  (tick_duration w1 + tick_duration w2 + tick_duration w3 < 10)%Q ->
  exists s',
    start_monitoring (Some 30)
      (completed w1 :: completed w2 :: completed w3 :: Tick w4 sl :: rest) s
    = Some (Ret tt, s') /\
    ticks s' = (ticks s + 4)%nat /\
    flushes s' = (flushes s + 1)%nat /\
    running s' = false.
Proof.
  intros Hi Hw H1 H2 H3 H4 Hsum.
  simpl in Hw. rewrite andb_true_r in Hw.
  apply andb_prop in Hw. destruct Hw as [Hw1 Hw].
  apply andb_prop in Hw. destruct Hw as [Hw2 Hw].
  apply andb_prop in Hw. destruct Hw as [Hw3 Hw4].
  set (c := clock s).
  destruct (start_monitoring_prologue_spec (Some 30) s)
    as [Hr0 [Hc0 [Hcfg0 [Hi0 [Hclk0 _]]]]].
  set (s0 := start_monitoring_prologue (Some 30) s) in *.
  destruct (loop_continue (Some 30) c w1
              (completed w2 :: completed w3 :: Tick w4 sl :: rest) s0 Hr0)
    as [s1 [Hstep1 [Hr1 [Hcfg1 [Hi1 [Hclk1 Hc1]]]]]].
  { rewrite Hcfg0. exact Hw1. }
  { rewrite Hi0, Hi. lia. }
  { apply duration_reached_false. rewrite Hclk0. fold c.
    change (inject_Z 30) with 30%Q. lra. }
  rewrite Hi0, Hi, Hclk0 in Hclk1. fold c in Hclk1.
  change (inject_Z 10) with 10%Q in Hclk1.
  destruct (loop_continue (Some 30) c w2
              (completed w3 :: Tick w4 sl :: rest) s1 Hr1)
    as [s2 [Hstep2 [Hr2 [Hcfg2 [Hi2 [Hclk2 Hc2]]]]]].
  { rewrite Hcfg1, Hcfg0. exact Hw2. }
  { rewrite Hi1, Hi0, Hi. lia. }
  { apply duration_reached_false. rewrite Hclk1.
    change (inject_Z 30) with 30%Q. lra. }
  rewrite Hi1, Hi0, Hi, Hclk1 in Hclk2.
  change (inject_Z 10) with 10%Q in Hclk2.
  destruct (loop_continue (Some 30) c w3 (Tick w4 sl :: rest) s2 Hr2)
    as [s3 [Hstep3 [Hr3 [Hcfg3 [Hi3 [Hclk3 Hc3]]]]]].
  { rewrite Hcfg2, Hcfg1, Hcfg0. exact Hw3. }
  { rewrite Hi2, Hi1, Hi0, Hi. lia. }
  { apply duration_reached_false. rewrite Hclk2.
    change (inject_Z 30) with 30%Q. lra. }
  rewrite Hi2, Hi1, Hi0, Hi, Hclk2 in Hclk3.
  change (inject_Z 10) with 10%Q in Hclk3.
  destruct (loop_break (Some 30) c w4 sl rest s3 Hr3)
    as [s4 [Hstep4 Hc4]].
  { rewrite Hcfg3, Hcfg2, Hcfg1, Hcfg0. exact Hw4. }
  { apply duration_reached_true; [discriminate|]. rewrite Hclk3.
    change (inject_Z 30) with 30%Q. lra. }
  assert (Hloop : monitoring_loop (Some 30) (clock s)
                    (completed w1 :: completed w2 :: completed w3 :: Tick w4 sl :: rest)
                    s0 = Some (Ret tt, s4)).
  { fold c. rewrite Hstep1, Hstep2, Hstep3. exact Hstep4. }
  destruct (start_monitoring_finish (Some 30) _ s s4 _ Hloop)
    as [s5 [Hrun [Ht5 [Hf5 Hr5]]]].
  exists s5. split; [exact Hrun|].
  assert (Hcalls : calls s4
                   = calls s ++ [CallCollect; CallSleep; CallCollect; CallSleep;
                                 CallCollect; CallSleep; CallCollect]).
  { rewrite Hc4, Hc3, Hc2, Hc1, Hc0. repeat rewrite <- app_assoc. reflexivity. }
  rewrite Ht5, Hf5.
  rewrite (ticks_calls_app s s4 _ Hcalls), (flushes_calls_app s s4 _ Hcalls).
  simpl. repeat split; [lia | exact Hr5].
Qed.

(** C2 amended, on a fresh monitor with ticks of one second each. *)
Lemma thirty_seconds_take_four_ticks_witness :
  exists s',
    start_monitoring (Some 30)
      [completed (sample_world 1); completed (sample_world 1);
       completed (sample_world 1); completed (sample_world 1)] (init 10 0)
    = Some (Ret tt, s') /\
    ticks s' = 4%nat /\
    flushes s' = 1%nat.
Proof.
  destruct (thirty_seconds_take_four_ticks (sample_world 1) (sample_world 1)
              (sample_world 1) (sample_world 1) SleepDone [] (init 10 0))
    as [s' [Hrun [Ht [Hf _]]]]; try reflexivity; try discriminate.
  exists s'. split; [exact Hrun|]. split; [exact Ht | exact Hf].
Defined.

(** ** Exit paths without a signal *)

(** A tick, whether it returns or raises, is one call of [collect_metrics]
    and no call of [save_data]. *)
Lemma collect_metrics_frame (w : World) (s s' : State) (o : outcome unit) :
  collect_metrics w s = (o, s') ->
  calls s' = calls s ++ [CallCollect] /\ interval s' = interval s.
Proof.
  unfold collect_metrics. rewrite bind_modify. unfold bind at 1, lift.
  rewrite get_system_stats_returns. unfold bind at 1, gets.
  pose proof (collect_containers_frame w (containers (add_call CallCollect s)) []
                (add_call CallCollect s)) as Hf.
  unfold bind at 1.
  destruct (collect_containers w (containers (add_call CallCollect s)) []
              (add_call CallCollect s)) as [[cs|e] s1]; simpl in Hf;
    destruct Hf as [Hi1 [_ [_ [_ [_ [_ Hc1]]]]]].
  - repeat rewrite bind_modify. unfold modify.
    match goal with
    | |- context [log_entries cs ?x] => remember x as s2 eqn:Hs2
    end.
    destruct (log_entries_only_logged cs s2) as [Hi2 [_ [_ [_ [_ [_ Hc2]]]]]].
    intros [= _ <-]. cbn [set_clock calls interval]. rewrite Hc2, Hi2. subst s2.
    cbn [add_log set_data calls interval]. rewrite Hc1, Hi1.
    split; reflexivity.
  - intros [= _ <-]. rewrite Hc1, Hi1. split; reflexivity.
Qed.

(** A sleep that no signal interrupts calls nothing but [time.sleep]. *)
Lemma sleep_frame (sl : SleepEvent) (s : State) :
  sl <> SleepSignal ->
  calls (snd (sleep sl s)) = calls s ++ [CallSleep].
Proof.
  intros Hsl. unfold sleep. rewrite bind_modify. unfold bind, gets. simpl.
  destruct (Z.ltb (interval s) 0); [reflexivity|].
  destruct sl; [reflexivity | contradiction | reflexivity].
Qed.

(** Without a signal the loop never calls [save_data], however it ends. *)
Lemma loop_without_signal (duration : option Z) (start_time : Q)
  (script : list TickEvent) :
  forall (s s' : State) (o : outcome unit),
    no_signal script = true ->
    monitoring_loop duration start_time script s = Some (o, s') ->
    flushes s' = flushes s.
Proof.
  induction script as [|ev rest IH]; intros s s' o Hns Hloop; simpl in Hloop.
  - destruct (running s); [discriminate|]. injection Hloop as _ <-. reflexivity.
  - destruct (running s); [|injection Hloop as _ <-; reflexivity].
    destruct ev as [w sl|]; [|discriminate Hns].
    simpl in Hns.
    assert (Hsl : sl <> SleepSignal) by (destruct sl; [discriminate | discriminate Hns | discriminate]).
    assert (Hrest : no_signal rest = true) by (destruct sl; [exact Hns | discriminate Hns | exact Hns]).
    destruct (collect_metrics w s) as [[[]|e] s1] eqn:Hcm;
      destruct (collect_metrics_frame w s _ _ Hcm) as [Hc _].
    + destruct (duration_reached duration start_time (clock s1)).
      * injection Hloop as _ <-.
        apply (flushes_calls_app s) in Hc. simpl in Hc.
        unfold flushes in *. simpl. rewrite Hc. lia.
      * pose proof (sleep_frame sl s1 Hsl) as Hc2.
        destruct (sleep sl s1) as [[[]|e2] s2]; simpl in Hc2.
        -- rewrite (IH s2 s' o Hrest Hloop).
           rewrite (flushes_calls_app s1 s2 _ Hc2), (flushes_calls_app s s1 _ Hc).
           simpl. lia.
        -- injection Hloop as _ <-.
           rewrite (flushes_calls_app s1 s2 _ Hc2), (flushes_calls_app s s1 _ Hc).
           simpl. lia.
    + injection Hloop as _ <-.
      rewrite (flushes_calls_app s s1 _ Hc). simpl. lia.
Qed.

(** The other exit paths: when no signal is delivered, a run that ends, by
    the duration check, by a KeyboardInterrupt or by an exception that
    nothing handles, has called [save_data] exactly once. *)
Lemma exit_without_signal_saves_once (duration : option Z)
  (script : list TickEvent) (s s' : State) (o : outcome unit) :
  no_signal script = true ->
  start_monitoring duration script s = Some (o, s') ->
  flushes s' = (flushes s + 1)%nat.
Proof.
  intros Hns Hrun.
  destruct (monitoring_loop duration (clock s) script
              (start_monitoring_prologue duration s)) as [[o1 s1]|] eqn:Hloop.
  - destruct (start_monitoring_finish duration script s s1 o1 Hloop)
      as [s3 [Hrun3 [_ [Hf3 _]]]].
    rewrite Hrun3 in Hrun. injection Hrun as _ <-.
    rewrite Hf3, (loop_without_signal _ _ _ _ _ _ Hns Hloop).
    destruct (start_monitoring_prologue_spec duration s) as [_ [Hc0 _]].
    unfold flushes. rewrite Hc0. reflexivity.
  - unfold start_monitoring in Hrun. rewrite Hloop in Hrun. discriminate.
Qed.

(** The three such paths on a fresh monitor: the duration elapses, a
    KeyboardInterrupt is raised in the sleep, and [time.sleep] raises
    ValueError on a negative interval; one flush each. *)
Example exit_paths_save_once :
  option_map (fun r => (fst r, flushes (snd r)))
    (start_monitoring (Some 5) [completed (sample_world 6)] (init 10 0))
  = Some (Ret tt, 1%nat) /\
  option_map (fun r => (fst r, flushes (snd r)))
    (start_monitoring None [Tick (sample_world 1) SleepInterrupted] (init 10 0))
  = Some (Ret tt, 1%nat) /\
  option_map (fun r => (fst r, flushes (snd r)))
    (start_monitoring None [completed (sample_world 1)] (init (-1) 0))
  = Some (Raise (ValueError "sleep length must be non-negative"), 1%nat).
Proof. repeat split; vm_compute; reflexivity. Qed.

(** A signal before the first tick has finished: no tick, nothing to
    write, and still two calls of [save_data], each logging its warning. *)
Example signal_before_first_tick :
  option_map (fun r => (fst r, ticks (snd r), flushes (snd r), files (snd r),
                        logs (snd r)))
    (start_monitoring None [TickSignal] (init 10 0))
  = Some (Raise (SystemExit 0), 0%nat, 2%nat, [],
          [LogStarting 10; LogShutdownSignal; LogNoData; LogNoData]).
Proof. vm_compute. reflexivity. Qed.

(** * Further properties of the monitor *)

(** ** get_latest_data *)

Lemma last_item_app {A} (l : list A) (x : A) : last_item (l ++ [x]) = Ret x.
Proof.
  induction l as [|a rest IH]; simpl; [reflexivity|].
  destruct (rest ++ [x]) as [|b tl] eqn:Heq.
  - destruct rest; discriminate.
  - exact IH.
Qed.

(** X1. [get_latest_data] answers None exactly when nothing has been
    collected, and after a tick that returned it answers the snapshot that
    this tick appended, the one stamped with the tick's time; it changes
    nothing. *)
Theorem get_latest_data_after_tick (w : World) (s s' : State) :
  collect_metrics w s = (Ret tt, s') ->
  (fst (get_latest_data s) = Ret None <-> data s = []) /\
  exists m,
    get_latest_data s' = (Ret (Some m), s') /\
    data s' = data s ++ [m] /\
    metrics_timestamp m = now_tick w.
Proof.
  intros Hrun. split.
  - unfold get_latest_data, bind at 1, gets.
    destruct (data s) as [|m0 rest] eqn:Hd.
    + split; reflexivity.
    + split; [|discriminate].
      unfold bind, lift, ret. destruct (last_item (m0 :: rest)); discriminate.
  - destruct (collect_metrics_spec w s s' Hrun) as [m [Hd [_ [_ [_ [_ [_ [_ [Hts _]]]]]]]]].
    exists m. split; [|split; assumption].
    unfold get_latest_data, bind at 1, gets. rewrite Hd.
    destruct (data s ++ [m]) as [|m0 rest] eqn:Heq.
    + destruct (data s); discriminate.
    + rewrite <- Heq. unfold bind, lift, ret. rewrite last_item_app. reflexivity.
Qed.

(** X1 on a fresh monitor and its first tick in the sample world. *)
Lemma get_latest_data_after_tick_witness :
  fst (get_latest_data (init 10 0)) = Ret None /\
  exists m,
    get_latest_data sample_state_after_tick = (Ret (Some m), sample_state_after_tick) /\
    metrics_timestamp m = "2024-01-01T00:00:00".
Proof.
  destruct (get_latest_data_after_tick (sample_world 0) (init 10 0)
              sample_state_after_tick)
    as [Hnone [m [Hget [_ Hts]]]]; [vm_compute; reflexivity|].
  split; [apply Hnone; reflexivity|].
  exists m. split; [exact Hget | exact Hts].
Defined.

(** ** get_dataframe *)

Lemma frame_entry_app {T} (to_datetime : string -> T) (acc : list (FrameRow T))
  (entry : Metrics) :
  frame_entry to_datetime acc entry
  = acc ++ map (frame_of_row to_datetime) (rows_of entry).
Proof.
  unfold frame_entry, rows_of.
  generalize (metrics_containers entry) as cs. intros cs. revert acc.
  induction cs as [|p rest IH]; intros acc; simpl.
  - rewrite app_nil_r. reflexivity.
  - rewrite IH, <- app_assoc. reflexivity.
Qed.

Lemma fold_frame_entry {T} (to_datetime : string -> T) (d : list Metrics)
  (acc : list (FrameRow T)) :
  fold_left (frame_entry to_datetime) d acc
  = acc ++ map (frame_of_row to_datetime) (flat_map rows_of d).
Proof.
  revert acc. induction d as [|entry rest IH]; intros acc; simpl.
  - rewrite app_nil_r. reflexivity.
  - rewrite IH, frame_entry_app, map_app, <- app_assoc. reflexivity.
Qed.

(** X2. The DataFrame of [get_dataframe] has, row for row and in the same
    order, the rows that [save_data] puts in the CSV file, with the
    timestamp converted by pd.to_datetime; with nothing collected it is the
    empty DataFrame.  The monitor is left as it was. *)
Theorem get_dataframe_rows {T} (to_datetime : string -> T) (s : State) :
  get_dataframe to_datetime s
  = (Ret (map (frame_of_row to_datetime) (flatten (data s))), s) /\
  (data s = [] -> get_dataframe to_datetime s = (Ret [], s)).
Proof.
  unfold get_dataframe, bind, gets, ret.
  destruct (data s) as [|m rest].
  - split; reflexivity.
  - split; [|discriminate].
    rewrite fold_frame_entry, flatten_flat_map. reflexivity.
Qed.

(** X2 on a fresh monitor: the empty DataFrame. *)
Lemma get_dataframe_rows_witness :
  get_dataframe (fun ts : string => ts) (init 10 0) = (Ret [], init 10 0).
Proof.
  exact (proj2 (get_dataframe_rows (fun ts : string => ts) (init 10 0)) eq_refl).
Defined.

(** ** save_data on a series that is not empty *)

Lemma flatten_app (d1 d2 : list Metrics) :
  flatten (d1 ++ d2) = flatten d1 ++ flatten d2.
Proof. rewrite !flatten_flat_map. apply flat_map_app. Qed.

(** No row at all: no snapshot of the series has an entry. *)
Lemma flatten_nil_iff (d : list Metrics) :
  flatten d = [] <-> existsb has_entries d = false.
Proof.
  rewrite flatten_flat_map.
  induction d as [|m rest IH]; simpl; [split; reflexivity|].
  unfold has_entries at 1, rows_of at 1.
  destruct (metrics_containers m) as [|p cs]; simpl.
  - exact IH.
  - split; discriminate.
Qed.

(** One call of [save_data], with the files it writes spelled out. *)
Lemma save_data_files (filename : option string) (s : State) :
  exists r s',
    save_data filename s = (Ret r, s') /\
    files s' = files s ++ saved_files (chosen_filename filename s) (data s) /\
    data s' = data s /\
    calls s' = calls s ++ [CallSave] /\
    clock s' = clock s /\ interval s' = interval s /\
    running s' = running s /\ containers s' = containers s /\
    r = match data s with
        | [] => None
        | _ :: _ =>
            Some (if existsb has_entries (data s)
                  then Some (CsvPath (chosen_filename filename s))
                  else None,
                  JsonPath (chosen_filename filename s))
        end.
Proof.
  unfold save_data. rewrite bind_modify. unfold bind at 1, gets. simpl.
  destruct (data s) as [|m rest] eqn:Hd.
  - rewrite bind_modify. unfold ret.
    eexists. eexists. split; [reflexivity|]. simpl. rewrite app_nil_r.
    repeat (split; [first [reflexivity | exact Hd]|]). reflexivity.
  - assert (Hfname :
             (match filename with
              | Some f => ret (Custom f)
              | None => default_filename
              end) (add_call CallSave s)
             = (Ret (chosen_filename filename s), add_call CallSave s)).
    { destruct filename; reflexivity. }
    rewrite (bind_eq _ _ _ _ _ Hfname). rewrite bind_modify.
    unfold saved_files.
    destruct (flatten (m :: rest)) as [|row rows] eqn:Hflat.
    + apply flatten_nil_iff in Hflat. rewrite Hflat.
      unfold ret. eexists. eexists. split; [reflexivity|]. simpl.
      repeat (split; [first [reflexivity | exact Hd]|]). reflexivity.
    + assert (Hex : existsb has_entries (m :: rest) = true).
      { destruct (existsb has_entries (m :: rest)) eqn:Hex; [reflexivity|].
        apply flatten_nil_iff in Hex. rewrite Hex in Hflat. discriminate. }
      rewrite Hex. repeat rewrite bind_modify. unfold ret.
      eexists. eexists. split; [reflexivity|]. simpl.
      rewrite <- app_assoc. simpl.
      repeat (split; [first [reflexivity | exact Hd]|]). reflexivity.
Qed.

(** X3. With a series that is not empty, [save_data] always writes the
    JSON file, holding the whole series, and returns its path; it writes
    the CSV file, holding all the rows, and returns its path exactly when
    some snapshot has an entry, and None for it otherwise.  Both files take
    the name that was given, or else the one stamped with the current
    second. *)
Theorem save_data_writes_series (filename : option string) (s : State) :
  data s <> [] ->
  exists s',
    save_data filename s
    = (Ret (Some (if existsb has_entries (data s)
                  then Some (CsvPath (chosen_filename filename s))
                  else None,
                  JsonPath (chosen_filename filename s))), s') /\
    files s' = files s ++
               WriteJson (JsonPath (chosen_filename filename s)) (data s) ::
               (if existsb has_entries (data s)
                then [WriteCsv (CsvPath (chosen_filename filename s))
                        (flatten (data s))]
                else []) /\
    (existsb has_entries (data s) = false <-> flatten (data s) = []).
Proof.
  intros Hne.
  destruct (save_data_files filename s)
    as [r [s' [Hrun [Hf [_ [_ [_ [_ [_ [_ Hr]]]]]]]]]].
  exists s'. unfold saved_files in Hf.
  destruct (data s) as [|m rest] eqn:Hd; [contradiction|].
  subst r. split; [exact Hrun|]. split; [exact Hf|].
  symmetry. apply flatten_nil_iff.
Qed.

(** X3 on the sample series, saved under the name "run1". *)
Lemma save_data_writes_series_witness :
  exists s',
    save_data (Some "run1") (set_data sample_series (init 10 0))
    = (Ret (Some (Some (CsvPath (Custom "run1")), JsonPath (Custom "run1"))), s') /\
    files s' = [WriteJson (JsonPath (Custom "run1")) sample_series;
                WriteCsv (CsvPath (Custom "run1")) (flatten sample_series)].
Proof.
  destruct (save_data_writes_series (Some "run1")
              (set_data sample_series (init 10 0)))
    as [s' [Hrun [Hf _]]]; [discriminate|].
  exists s'. split; [exact Hrun | exact Hf].
Defined.

(** X4. A tick that returns adds the rows of its snapshot, one per entry,
    after the rows there were: the rows of the earlier snapshots stay as
    they are and where they are from one flush to the next. *)
Theorem tick_adds_rows_at_end (w : World) (s s' : State) :
  collect_metrics w s = (Ret tt, s') ->
  exists m,
    data s' = data s ++ [m] /\
    flatten (data s') = flatten (data s) ++ rows_of m /\
    List.length (rows_of m) = List.length (metrics_containers m).
Proof.
  intros Hrun.
  destruct (collect_metrics_spec w s s' Hrun) as [m [Hd _]].
  exists m. split; [exact Hd|]. split.
  - rewrite Hd, flatten_app. f_equal.
    rewrite flatten_flat_map. simpl. apply app_nil_r.
  - unfold rows_of. apply length_map.
Qed.

(** X4 on the first tick in the sample world: one row, for the node
    container. *)
Lemma tick_adds_rows_at_end_witness :
  exists m,
    data sample_state_after_tick = [m] /\
    flatten (data sample_state_after_tick) = rows_of m /\
    List.length (rows_of m) = 1%nat.
Proof.
  destruct (tick_adds_rows_at_end (sample_world 0) (init 10 0)
              sample_state_after_tick)
    as [m [Hd [Hflat Hlen]]]; [vm_compute; reflexivity|].
  exists m. split; [exact Hd|]. split; [exact Hflat|].
  rewrite Hlen. simpl in Hd. injection Hd as <-. reflexivity.
Defined.

(** ** A tick as a whole *)

Lemma check_container_health_ret (w : World) (name url : string) (s s' : State)
  (h : bool) :
  check_container_health w name url s = (Ret h, s') ->
  (h = true <-> requests_get w url = Ret 200).
Proof.
  unfold check_container_health, try_except, bind, lift, ret.
  destruct (requests_get w url) as [code|e].
  - intros [= <- _]. split.
    + intros H. apply Z.eqb_eq in H. subst code. reflexivity.
    + intros [= ->]. reflexivity.
  - destruct (is_Exception e); [|discriminate].
    intros [= <- _]. split; discriminate.
Qed.

Lemma check_container_health_raises (w : World) (name url : string) (s s' : State)
  (e : exn) :
  check_container_health w name url s = (Raise e, s') ->
  is_Exception e = false.
Proof.
  unfold check_container_health, try_except, bind, lift, ret.
  destruct (requests_get w url) as [code|e0]; [discriminate|].
  destruct (is_Exception e0) eqn:He; [discriminate|].
  intros [= <- _]. exact He.
Qed.

(** What escapes the loop over the targets is never an error. *)
Lemma collect_containers_raises (w : World) (items : list (string * string)) :
  forall (acc : list (string * ContainerEntry)) (s s' : State) (e : exn),
    collect_containers w items acc s = (Raise e, s') ->
    is_Exception e = false.
Proof.
  induction items as [|[name url] rest IH]; intros acc s s' e; simpl.
  - discriminate.
  - destruct (get_container_stats_cases w name s)
      as [[r [_ Hres]] | [[s1 [_ Hres]] | [e0 [He0 Hres]]]];
      unfold bind at 1; rewrite Hres.
    + unfold bind at 1.
      destruct (check_container_health w name url s) as [[h|e1] s1] eqn:Hh.
      * apply IH.
      * intros [= <- _]. exact (check_container_health_raises _ _ _ _ _ _ Hh).
    + apply IH.
    + intros [= <- _]. exact He0.
Qed.

(** The two ways a tick can end. *)
Lemma collect_metrics_outcomes (w : World) (s s' : State) (o : outcome unit) :
  collect_metrics w s = (o, s') ->
  files s' = files s /\
  calls s' = calls s ++ [CallCollect] /\
  ((o = Ret tt /\ exists m, data s' = data s ++ [m]) \/
   (exists e, o = Raise e /\ is_Exception e = false /\ data s' = data s)).
Proof.
  intros Hrun.
  split; [|split; [exact (proj1 (collect_metrics_frame w s s' o Hrun))|]];
    revert Hrun; destruct o as [[]|e]; intros Hrun.
  - destruct (collect_metrics_spec w s s' Hrun)
      as [m [_ [_ [_ [_ [_ [_ [Hf _]]]]]]]]. exact Hf.
  - revert Hrun. unfold collect_metrics.
    rewrite bind_modify. unfold bind at 1, lift.
    rewrite get_system_stats_returns.
    unfold bind at 1, gets. unfold bind at 1.
    pose proof (collect_containers_frame w (containers (add_call CallCollect s)) []
                  (add_call CallCollect s)) as Hlog.
    destruct (collect_containers w (containers (add_call CallCollect s)) []
                (add_call CallCollect s)) as [[cs|e0] s1] eqn:Hcc.
    + repeat rewrite bind_modify. unfold modify. discriminate.
    + intros [= <- <-]. simpl in Hlog.
      destruct Hlog as [_ [_ [_ [_ [_ [Hf _]]]]]]. exact Hf.
  - destruct (collect_metrics_spec w s s' Hrun) as [m [Hd _]].
    left. split; [reflexivity|]. exists m. exact Hd.
  - revert Hrun. unfold collect_metrics.
    rewrite bind_modify. unfold bind at 1, lift.
    rewrite get_system_stats_returns.
    unfold bind at 1, gets. unfold bind at 1.
    pose proof (collect_containers_frame w (containers (add_call CallCollect s)) []
                  (add_call CallCollect s)) as Hlog.
    destruct (collect_containers w (containers (add_call CallCollect s)) []
                (add_call CallCollect s)) as [[cs|e0] s1] eqn:Hcc.
    + repeat rewrite bind_modify. unfold modify. discriminate.
    + intros [= <- <-]. simpl in Hlog.
      destruct Hlog as [_ [Hd _]].
      right. exists e0. split; [reflexivity|].
      split; [exact (collect_containers_raises _ _ _ _ _ _ Hcc) | exact Hd].
Qed.

(** ** The entries of a snapshot *)

Lemma keys_dict_set_new {V} (key : string) (v : V) (d : list (string * V)) :
  ~ In key (keys d) -> keys (dict_set key v d) = keys d ++ [key].
Proof.
  induction d as [|[k x] rest IH]; simpl; intros Hnotin; [reflexivity|].
  destruct (String.eqb k key) eqn:Hk.
  - apply String.eqb_eq in Hk. exfalso. apply Hnotin. left. exact Hk.
  - simpl. rewrite IH; [reflexivity|]. intros Hin. apply Hnotin. right. exact Hin.
Qed.

(** With targets that are all different and not yet in the dict, the loop
    over the targets adds the fetched ones at the end, in their order. *)
Lemma collect_containers_keys (w : World) (items : list (string * string)) :
  forall (acc cs : list (string * ContainerEntry)) (s s' : State),
    NoDup (keys items) ->
    (forall n, In n (keys items) -> ~ In n (keys acc)) ->
    collect_containers w items acc s = (Ret cs, s') ->
    keys cs = keys acc ++ filter (fun n => negb (fetch_fails w n)) (keys items).
Proof.
  induction items as [|[name url] rest IH]; intros acc cs s s' Hnd Hfresh; simpl.
  - unfold ret. intros [= <- _]. rewrite app_nil_r. reflexivity.
  - inversion Hnd as [|? ? Hnotin Hnd']; subst.
    destruct (get_container_stats_cases w name s)
      as [[r [Hbody Hres]] | [[s1 [Hfail Hres]] | [e [_ Hres]]]];
      unfold bind at 1; rewrite Hres; [| |discriminate].
    + assert (Hok : fetch_fails w name = false)
        by (unfold fetch_fails; rewrite Hbody; reflexivity).
      rewrite Hok. simpl.
      unfold bind at 1.
      destruct (check_container_health w name url s) as [[h|e1] s1]; [|discriminate].
      intros Hrun.
      assert (Hfresh' : forall n, In n (keys rest) ->
                ~ In n (keys (dict_set name {| entry_stats := r; healthy := h |} acc))).
      { intros n Hn Hin. apply keys_dict_set in Hin. destruct Hin as [->|Hin].
        - apply Hnotin. exact Hn.
        - apply (Hfresh n); [right; exact Hn | exact Hin]. }
      rewrite (IH _ _ _ _ Hnd' Hfresh' Hrun).
      rewrite keys_dict_set_new by (apply Hfresh; left; reflexivity).
      rewrite <- app_assoc. reflexivity.
    + rewrite Hfail. simpl. intros Hrun.
      apply (IH acc cs s1 s' Hnd'); [|exact Hrun].
      intros n Hn. apply Hfresh. right. exact Hn.
Qed.

(** X6. The entries of a snapshot are the configured targets whose fetch
    succeeded, in the order of the configuration: so are, snapshot by
    snapshot, the rows of the CSV file. *)
Theorem snapshot_keys_in_config_order (w : World) (s s' : State) :
  NoDup (keys (containers s)) ->
  collect_metrics w s = (Ret tt, s') ->
  exists m,
    data s' = data s ++ [m] /\
    keys (metrics_containers m)
    = filter (fun n => negb (fetch_fails w n)) (keys (containers s)) /\
    map row_container_name (rows_of m) = keys (metrics_containers m).
Proof.
  intros Hnd. unfold collect_metrics.
  rewrite bind_modify. unfold bind at 1, lift.
  rewrite get_system_stats_returns.
  unfold bind at 1, gets. unfold bind at 1.
  destruct (collect_containers w (containers (add_call CallCollect s)) []
              (add_call CallCollect s)) as [[cs|e] s1] eqn:Hrun;
    [|discriminate].
  pose proof (collect_containers_frame w (containers (add_call CallCollect s)) []
                (add_call CallCollect s)) as Hlog.
  rewrite Hrun in Hlog. simpl in Hlog. destruct Hlog as [_ [Hd _]].
  pose proof (collect_containers_keys w _ [] _ _ _ Hnd (fun n _ H => H) Hrun) as Hkeys.
  repeat rewrite bind_modify. unfold modify.
  match goal with
  | |- context [log_entries cs ?x] => remember x as s2 eqn:Hs2
  end.
  destruct (log_entries_only_logged cs s2) as [_ [Hd2 _]].
  intros [= <-]. eexists. cbn [set_clock data]. rewrite Hd2. subst s2.
  cbn [add_log set_data data]. rewrite Hd.
  split; [reflexivity|]. cbn [metrics_containers]. split; [exact Hkeys|].
  unfold rows_of, keys. cbn [metrics_containers]. rewrite map_map. reflexivity.
Qed.

(** X6 on the first tick of a fresh monitor in the sample world. *)
Lemma snapshot_keys_in_config_order_witness :
  exists m,
    data sample_state_after_tick = [m] /\
    keys (metrics_containers m) = ["node-nextjs-app"] /\
    map row_container_name (rows_of m) = ["node-nextjs-app"].
Proof.
  destruct (snapshot_keys_in_config_order (sample_world 0) (init 10 0)
              sample_state_after_tick)
    as [m [Hd [Hkeys Hrows]]].
  - repeat constructor; simpl; intuition discriminate.
  - vm_compute. reflexivity.
  - exists m. split; [exact Hd|]. split; [exact Hkeys|].
    rewrite Hrows. exact Hkeys.
Defined.

(** The loop over the targets leaves alone the entries of the names that
    are not among its targets. *)
Lemma collect_containers_other (w : World) (items : list (string * string)) :
  forall (acc cs : list (string * ContainerEntry)) (s s' : State) (n : string),
    ~ In n (keys items) ->
    collect_containers w items acc s = (Ret cs, s') ->
    dict_get n cs = dict_get n acc.
Proof.
  induction items as [|[name url] rest IH]; intros acc cs s s' n Hn; simpl.
  - unfold ret. intros [= <- _]. reflexivity.
  - simpl in Hn.
    destruct (get_container_stats_cases w name s)
      as [[r [_ Hres]] | [[s1 [_ Hres]] | [e [_ Hres]]]];
      unfold bind at 1; rewrite Hres; [| |discriminate].
    + unfold bind at 1.
      destruct (check_container_health w name url s) as [[h|e1] s1]; [|discriminate].
      intros Hrun.
      rewrite (IH _ cs s1 s' n (fun H => Hn (or_intror H)) Hrun).
      apply dict_get_dict_set_other. intros ->. apply Hn. left. reflexivity.
    + intros Hrun.
      exact (IH acc cs s1 s' n (fun H => Hn (or_intror H)) Hrun).
Qed.

Lemma collect_containers_healthy (w : World) (items : list (string * string)) :
  forall (acc cs : list (string * ContainerEntry)) (s s' : State),
    NoDup (keys items) ->
    (forall n, In n (keys items) -> ~ In n (keys acc)) ->
    collect_containers w items acc s = (Ret cs, s') ->
    forall name url e,
      In (name, url) items ->
      dict_get name cs = Some e ->
      (healthy e = true <-> requests_get w url = Ret 200).
Proof.
  induction items as [|[name0 url0] rest IH]; intros acc cs s s' Hnd Hfresh; simpl.
  - intros _ name url e [].
  - inversion Hnd as [|? ? Hnotin Hnd']; subst.
    destruct (get_container_stats_cases w name0 s)
      as [[r [_ Hres]] | [[s1 [Hfail Hres]] | [e0 [_ Hres]]]];
      unfold bind at 1; rewrite Hres; [| |discriminate].
    + unfold bind at 1.
      destruct (check_container_health w name0 url0 s) as [[h|e1] s1] eqn:Hh;
        [|discriminate].
      intros Hrun name url e [[= <- <-]|Hin] He.
      * rewrite (collect_containers_other w rest _ cs s1 s' name0 Hnotin Hrun) in He.
        rewrite dict_get_dict_set_same in He. injection He as <-. simpl.
        exact (check_container_health_ret _ _ _ _ _ _ Hh).
      * assert (Hfresh' : forall n, In n (keys rest) ->
                  ~ In n (keys (dict_set name0
                                  {| entry_stats := r; healthy := h |} acc))).
        { intros n Hn Hk. apply keys_dict_set in Hk. destruct Hk as [->|Hk].
          - apply Hnotin. exact Hn.
          - apply (Hfresh n); [right; exact Hn | exact Hk]. }
        exact (IH _ cs s1 s' Hnd' Hfresh' Hrun name url e Hin He).
    + intros Hrun name url e [[= <- <-]|Hin] He.
      * exfalso.
        rewrite (collect_containers_other w rest acc cs s1 s' name0 Hnotin Hrun) in He.
        apply (Hfresh name0); [left; reflexivity|].
        apply dict_get_in_keys. exists e. exact He.
      * assert (Hfresh' : forall n, In n (keys rest) -> ~ In n (keys acc))
          by (intros n Hn; apply Hfresh; right; exact Hn).
        exact (IH acc cs s1 s' Hnd' Hfresh' Hrun name url e Hin He).
Qed.

(** X7. In a snapshot the 'healthy' flag of a target is the answer of the
    probe of that target's own URL in that tick: true exactly when the GET
    of the URL returned 200. *)
Theorem entry_healthy_is_probe (w : World) (s s' : State) :
  NoDup (keys (containers s)) ->
  collect_metrics w s = (Ret tt, s') ->
  exists m,
    data s' = data s ++ [m] /\
    forall name url e,
      In (name, url) (containers s) ->
      dict_get name (metrics_containers m) = Some e ->
      (healthy e = true <-> requests_get w url = Ret 200).
Proof.
  intros Hnd. unfold collect_metrics.
  rewrite bind_modify. unfold bind at 1, lift.
  rewrite get_system_stats_returns.
  unfold bind at 1, gets. unfold bind at 1.
  destruct (collect_containers w (containers (add_call CallCollect s)) []
              (add_call CallCollect s)) as [[cs|e] s1] eqn:Hrun;
    [|discriminate].
  pose proof (collect_containers_frame w (containers (add_call CallCollect s)) []
                (add_call CallCollect s)) as Hlog.
  rewrite Hrun in Hlog. simpl in Hlog. destruct Hlog as [_ [Hd _]].
  pose proof (collect_containers_healthy w _ [] _ _ _ Hnd (fun n _ H => H) Hrun)
    as Hhealthy.
  repeat rewrite bind_modify. unfold modify.
  match goal with
  | |- context [log_entries cs ?x] => remember x as s2 eqn:Hs2
  end.
  destruct (log_entries_only_logged cs s2) as [_ [Hd2 _]].
  intros [= <-]. eexists. cbn [set_clock data]. rewrite Hd2. subst s2.
  cbn [add_log set_data data]. rewrite Hd.
  split; [reflexivity|]. cbn [metrics_containers]. exact Hhealthy.
Qed.

(** X7 on the first tick in the sample world: the node container, whose
    URL answers 200, is healthy. *)
Lemma entry_healthy_is_probe_witness :
  exists m e,
    data sample_state_after_tick = [m] /\
    dict_get "node-nextjs-app" (metrics_containers m) = Some e /\
    healthy e = true.
Proof.
  destruct (entry_healthy_is_probe (sample_world 0) (init 10 0)
              sample_state_after_tick)
    as [m [Hd Hhealthy]].
  - repeat constructor; simpl; intuition discriminate.
  - vm_compute. reflexivity.
  - simpl in Hd. injection Hd as <-.
    eexists. eexists. split; [reflexivity|]. split; [reflexivity|].
    apply (Hhealthy "node-nextjs-app" "http://localhost:3001");
      [left; reflexivity | reflexivity | reflexivity].
Defined.

Lemma bind_ext {A B} (m : M A) (k1 k2 : A -> M B) (s : State) :
  (forall a s', m s = (Ret a, s') -> k1 a s' = k2 a s') ->
  bind m k1 s = bind m k2 s.
Proof.
  intros H. unfold bind. destruct (m s) as [[a|e] s']; [apply H|]; reflexivity.
Qed.

(** The loop over the targets does not depend on what the HTTP client would
    answer for the targets whose fetch fails. *)
Lemma collect_containers_probe_free (w : World) (f : string -> outcome Z)
  (items : list (string * string)) :
  forall (acc : list (string * ContainerEntry)) (s : State),
    (forall name url,
        In (name, url) items -> fetch_fails w name = false ->
        f url = requests_get w url) ->
    collect_containers (set_requests_get f w) items acc s
    = collect_containers w items acc s.
Proof.
  induction items as [|[name url] rest IH]; intros acc s Hf; simpl; [reflexivity|].
  change (get_container_stats (set_requests_get f w) name)
    with (get_container_stats w name).
  assert (Hrest : forall n u, In (n, u) rest -> fetch_fails w n = false ->
                              f u = requests_get w u)
    by (intros n u Hin; apply Hf; right; exact Hin).
  apply bind_ext. intros [st|] s1 Hres.
  - apply get_container_stats_some in Hres. destruct Hres as [Hbody _].
    assert (Hok : fetch_fails w name = false)
      by (unfold fetch_fails; rewrite Hbody; reflexivity).
    replace (check_container_health (set_requests_get f w) name url)
      with (check_container_health w name url).
    + apply bind_ext. intros h s2 _. apply IH. exact Hrest.
    + unfold check_container_health. cbn [requests_get set_requests_get].
      rewrite (Hf name url (or_introl eq_refl) Hok). reflexivity.
  - apply IH. exact Hrest.
Qed.

(** X8. A target whose stats fetch fails is not probed: whatever the HTTP
    client would answer, or raise, for the URLs of such targets, the tick
    does the same and leaves the same monitor. *)
Theorem failed_targets_are_not_probed (w : World) (f : string -> outcome Z)
  (s : State) :
  (forall name url,
      In (name, url) (containers s) -> fetch_fails w name = false ->
      f url = requests_get w url) ->
  collect_metrics (set_requests_get f w) s = collect_metrics w s.
Proof.
  intros Hf. unfold collect_metrics.
  apply bind_ext. intros [] s1 [= <-].
  change (get_system_stats (set_requests_get f w)) with (get_system_stats w).
  apply bind_ext. intros sys s2 [= _ <-].
  apply bind_ext. intros items s3 [= <- <-].
  unfold bind at 1 5.
  rewrite (collect_containers_probe_free w f _ [] _ Hf). reflexivity.
Qed.

(** X8 in the sample world with an HTTP client that would end the process
    (SystemExit) on the URLs of the deno and bun containers, whose fetch
    fails: the tick is the same. *)
Lemma failed_targets_are_not_probed_witness :
  collect_metrics
    (set_requests_get
       (fun url => if String.eqb url "http://localhost:3001" then Ret 200
                   else Raise (SystemExit 1))
       (sample_world 0)) (init 10 0)
  = collect_metrics (sample_world 0) (init 10 0).
Proof.
  apply failed_targets_are_not_probed.
  intros name url [[= <- <-]|[[= <- <-]|[[= <- <-]|[]]]] Hok;
    first [reflexivity | discriminate Hok].
Defined.

(** ** Edge cases of get_container_stats *)

(** X9. Stats without the per-core list (the key 'percpu_usage' missing):
    when the system counter has advanced, the KeyError of line 73 is caught,
    logged as an error, and the target is answered with None, however sound
    the other readings are. *)
Theorem missing_percpu_usage_gives_none (w : World) (name : string)
  (c : Container) (st : RawStats) (cpu_now cpu_prev system_now system_prev : Z)
  (s : State) :
  containers_get w name = Ret c ->
  container_stats_call c = Ret st ->
  cpu_total_usage st = Some cpu_now ->
  precpu_total_usage st = Some cpu_prev ->
  system_cpu_usage st = Some system_now ->
  presystem_cpu_usage st = Some system_prev ->
  percpu_usage st = None ->
  0 < system_now - system_prev ->
  get_container_stats w name s
  = (Ret None, add_log (LogStatsError name (KeyError "percpu_usage")) s).
Proof.
  intros Hc Hst Ha Hb Hsn Hsp Hcores Hdelta.
  unfold get_container_stats, try_except, bind at 1, lift.
  assert (Hbody : get_container_stats_body w name = Raise (KeyError "percpu_usage")).
  { unfold get_container_stats_body. rewrite Hc. simpl. rewrite Hst. simpl.
    unfold calc_cpu_percent. rewrite Ha, Hb, Hsn, Hsp, Hcores. simpl.
    replace (Z.ltb 0 (system_now - system_prev)) with true
      by (symmetry; apply Z.ltb_lt; exact Hdelta).
    unfold truediv.
    replace (Z.eqb (system_now - system_prev) 0) with false
      by (symmetry; apply Z.eqb_neq; lia).
    reflexivity. }
  rewrite Hbody. reflexivity.
Qed.

(** X9 at the sample counters without their per-core list. *)
Lemma missing_percpu_usage_gives_none_witness :
  get_container_stats
    {| containers_get := fun _ =>
         Ret {| container_status := "running";
                container_stats_call :=
                  Ret {| cpu_total_usage := Some 2000;
                         precpu_total_usage := Some 1000;
                         system_cpu_usage := Some 50000;
                         presystem_cpu_usage := Some 40000;
                         percpu_usage := None;
                         memory_usage := Some 1;
                         memory_limit := Some 2 |} |};
       requests_get := fun _ => Ret 200;
       psutil_cpu_percent := 0; psutil_memory_percent := 0;
       psutil_memory_available := 0; tick_duration := 0;
       now_tick := ""; now_system := ""; now_container := fun _ => "" |}
    "node-nextjs-app" (init 10 0)
  = (Ret None,
     add_log (LogStatsError "node-nextjs-app" (KeyError "percpu_usage")) (init 10 0)).
Proof.
  eapply (missing_percpu_usage_gives_none _ _ _ _ 2000 1000 50000 40000);
    try reflexivity.
Defined.

(** ** Bounds on the percentages *)

Lemma round_half_even_le (q : Q) (k : Z) :
  (q <= inject_Z k)%Q -> round_half_even q <= k.
Proof.
  intros Hq. unfold round_half_even.
  destruct q as [n d]. unfold Qle in Hq. cbn [Qnum Qden inject_Z] in *.
  pose proof (Z.div_mod n (Zpos d) ltac:(lia)) as Hdm.
  pose proof (Z.mod_pos_bound n (Zpos d) ltac:(lia)) as Hr.
  set (kf := n / Zpos d) in *. set (r := n mod Zpos d) in *.
  assert (Hfloor : kf <= k).
  { apply (Z.mul_le_mono_pos_l _ _ (Zpos d)); lia. }
  assert (Hup : 0 < r -> kf + 1 <= k).
  { intros Hpos.
    assert (Hlt : Zpos d * kf < Zpos d * k) by lia.
    apply Z.mul_lt_mono_pos_l in Hlt; lia. }
  destruct (Z.compare (2 * r) (Zpos d)) eqn:Hcmp.
  - apply Z.compare_eq in Hcmp. destruct (Z.even kf); [exact Hfloor|].
    apply Hup. lia.
  - exact Hfloor.
  - apply Z.compare_gt_iff in Hcmp. apply Hup. lia.
Qed.

Lemma round2_le (q : Q) (k : Z) : (q <= inject_Z k)%Q -> (round2 q <= inject_Z k)%Q.
Proof.
  intros Hq. unfold round2. rewrite Qred_correct.
  assert (H : round_half_even (q * 100) <= k * 100).
  { apply round_half_even_le. rewrite inject_Z_mult.
    apply Qmult_le_compat_r; [exact Hq | discriminate]. }
  unfold Qle. simpl. lia.
Qed.

(** The record of the try block carries the rounded memory readings. *)
Lemma get_container_stats_body_memory (w : World) (name : string) (c : Container)
  (st : RawStats) (usage limit : Z) (r : ContainerStats) :
  containers_get w name = Ret c ->
  container_stats_call c = Ret st ->
  memory_usage st = Some usage ->
  memory_limit st = Some limit ->
  get_container_stats_body w name = Ret r ->
  limit <> 0 /\
  memory_percent r = round2 (inject_Z usage / inject_Z limit * 100)%Q /\
  memory_usage_mb r = round2 (inject_Z usage / inject_Z (1024 * 1024))%Q.
Proof.
  intros Hc Hst Hu Hl. unfold get_container_stats_body.
  rewrite Hc. simpl. rewrite Hst. simpl.
  destruct (calc_cpu_percent st) as [q|e]; [|discriminate]. simpl.
  rewrite Hu, Hl. simpl. unfold truediv at 1.
  destruct (Z.eqb limit 0) eqn:Hz; [discriminate|].
  apply Z.eqb_neq in Hz. simpl. intros [= <-]. simpl.
  repeat split. exact Hz.
Qed.

(** X10. For a memory usage between 0 and the limit, the record that
    [get_container_stats] returns has a memory_percent between 0 and 100
    and a memory_usage_mb that is not negative; a record is only returned
    when the limit is not zero. *)
Theorem memory_percent_bounded (w : World) (name : string) (c : Container)
  (st : RawStats) (usage limit : Z) (s s' : State) (r : ContainerStats) :
  containers_get w name = Ret c ->
  container_stats_call c = Ret st ->
  memory_usage st = Some usage ->
  memory_limit st = Some limit ->
  0 <= usage <= limit ->
  get_container_stats w name s = (Ret (Some r), s') ->
  limit <> 0 /\
  (0 <= memory_percent r)%Q /\ (memory_percent r <= 100)%Q /\
  (0 <= memory_usage_mb r)%Q.
Proof.
  intros Hc Hst Hu Hl [H0 Hle] Hres.
  apply get_container_stats_some in Hres. destruct Hres as [Hbody _].
  destruct (get_container_stats_body_memory w name c st usage limit r
              Hc Hst Hu Hl Hbody) as [Hnz [-> ->]].
  assert (Hpos : 0 < limit) by lia.
  assert (Hratio0 : (0 <= inject_Z usage / inject_Z limit)%Q).
  { apply Qle_shift_div_l.
    - rewrite <- (Zlt_Qlt 0). exact Hpos.
    - rewrite Qmult_0_l. rewrite <- (Zle_Qle 0). exact H0. }
  assert (Hratio1 : (inject_Z usage / inject_Z limit <= 1)%Q).
  { apply Qle_shift_div_r.
    - rewrite <- (Zlt_Qlt 0). exact Hpos.
    - rewrite Qmult_1_l. rewrite <- Zle_Qle. exact Hle. }
  split; [exact Hnz|]. split; [|split].
  - apply round2_nonneg. apply Qmult_le_0_compat; [exact Hratio0 | discriminate].
  - apply (round2_le _ 100).
    change (inject_Z 100) with (1 * 100)%Q.
    apply Qmult_le_compat_r; [exact Hratio1 | discriminate].
  - apply round2_nonneg. apply Qle_shift_div_l; [reflexivity|].
    rewrite Qmult_0_l. rewrite <- (Zle_Qle 0). exact H0.
Qed.

(** X10 at the node container of the sample world: 50 MiB of 1 GiB. *)
Lemma memory_percent_bounded_witness :
  exists r,
    get_container_stats (sample_world 0) "node-nextjs-app" (init 10 0)
    = (Ret (Some r), init 10 0) /\
    (0 <= memory_percent r)%Q /\ (memory_percent r <= 100)%Q /\
    memory_usage_mb r = 50%Q.
Proof.
  eexists. split; [vm_compute; reflexivity|].
  destruct (memory_percent_bounded (sample_world 0) "node-nextjs-app"
              {| container_status := "running";
                 container_stats_call := Ret sample_stats |}
              sample_stats (50 * 1024 * 1024) (1024 * 1024 * 1024)
              (init 10 0) (init 10 0) _
              eq_refl eq_refl eq_refl eq_refl ltac:(lia)
              ltac:(vm_compute; reflexivity))
    as [_ [H0 [H100 _]]].
  split; [exact H0|]. split; [exact H100 | reflexivity].
Defined.

(** X11. When the container's CPU counter has advanced by no more than the
    system's (0 <= cpu_delta <= system_delta, system_delta > 0), the
    cpu_percent of the record lies between 0 and 100 times the number of
    cores. *)
Theorem cpu_percent_bounded (w : World) (name : string) (c : Container)
  (st : RawStats) (cpu_now cpu_prev system_now system_prev : Z) (cores : list Z)
  (s s' : State) (r : ContainerStats) :
  containers_get w name = Ret c ->
  container_stats_call c = Ret st ->
  cpu_total_usage st = Some cpu_now ->
  precpu_total_usage st = Some cpu_prev ->
  system_cpu_usage st = Some system_now ->
  presystem_cpu_usage st = Some system_prev ->
  percpu_usage st = Some cores ->
  0 < system_now - system_prev ->
  0 <= cpu_now - cpu_prev <= system_now - system_prev ->
  get_container_stats w name s = (Ret (Some r), s') ->
  (0 <= cpu_percent r)%Q /\
  (cpu_percent r <= inject_Z (100 * Z.of_nat (List.length cores)))%Q.
Proof.
  intros Hc Hst Ha Hb Hsn Hsp Hcores Hdelta [H0 Hle] Hres.
  apply get_container_stats_some in Hres. destruct Hres as [Hbody _].
  set (q := (inject_Z (cpu_now - cpu_prev) / inject_Z (system_now - system_prev)
             * inject_Z (Z.of_nat (List.length cores)) * 100)%Q).
  assert (Hcalc : calc_cpu_percent st = Ret q).
  { unfold calc_cpu_percent. rewrite Ha, Hb, Hsn, Hsp, Hcores. simpl.
    replace (Z.ltb 0 (system_now - system_prev)) with true
      by (symmetry; apply Z.ltb_lt; exact Hdelta).
    unfold truediv.
    replace (Z.eqb (system_now - system_prev) 0) with false
      by (symmetry; apply Z.eqb_neq; lia).
    reflexivity. }
  rewrite (get_container_stats_body_cpu w name c st q r Hc Hst Hcalc Hbody).
  assert (Hn : (0 <= inject_Z (Z.of_nat (List.length cores)))%Q)
    by (rewrite <- (Zle_Qle 0); lia).
  assert (Hratio0 : (0 <= inject_Z (cpu_now - cpu_prev)
                          / inject_Z (system_now - system_prev))%Q).
  { apply Qle_shift_div_l.
    - rewrite <- (Zlt_Qlt 0). exact Hdelta.
    - rewrite Qmult_0_l. rewrite <- (Zle_Qle 0). exact H0. }
  assert (Hratio1 : (inject_Z (cpu_now - cpu_prev)
                     / inject_Z (system_now - system_prev) <= 1)%Q).
  { apply Qle_shift_div_r.
    - rewrite <- (Zlt_Qlt 0). exact Hdelta.
    - rewrite Qmult_1_l. rewrite <- Zle_Qle. exact Hle. }
  split.
  - apply round2_nonneg. subst q.
    apply Qmult_le_0_compat; [|discriminate].
    apply Qmult_le_0_compat; assumption.
  - apply round2_le. subst q.
    rewrite inject_Z_mult, (Qmult_comm (inject_Z 100)).
    apply Qmult_le_compat_r; [|discriminate].
    rewrite <- (Qmult_1_l (inject_Z (Z.of_nat (List.length cores)))) at 2.
    apply Qmult_le_compat_r; assumption.
Qed.

(** X11 at the node container of the sample world: 20 percent of two
    cores. *)
Lemma cpu_percent_bounded_witness :
  exists r,
    get_container_stats (sample_world 0) "node-nextjs-app" (init 10 0)
    = (Ret (Some r), init 10 0) /\
    (0 <= cpu_percent r)%Q /\ (cpu_percent r <= 200)%Q.
Proof.
  eexists. split; [vm_compute; reflexivity|].
  exact (cpu_percent_bounded (sample_world 0) "node-nextjs-app"
           {| container_status := "running";
              container_stats_call := Ret sample_stats |}
           sample_stats 2000 1000 50000 40000 [700; 300]
           (init 10 0) (init 10 0) _
           eq_refl eq_refl eq_refl eq_refl eq_refl eq_refl eq_refl
           ltac:(lia) ltac:(lia) ltac:(vm_compute; reflexivity)).
Defined.

(** ** Runs with and without a duration *)

Lemma monitoring_loop_zero_duration (start_time : Q) (script : list TickEvent) :
  forall s : State,
    monitoring_loop (Some 0) start_time script s
    = monitoring_loop None start_time script s.
Proof.
  induction script as [|ev rest IH]; intros s; simpl; [reflexivity|].
  destruct (running s); [|reflexivity].
  destruct ev as [w sl|]; [|reflexivity].
  destruct (collect_metrics w s) as [[[]|e] s1]; [|reflexivity].
  destruct (sleep sl s1) as [[[]|e] s2]; [apply IH | reflexivity].
Qed.

(** X12. A duration of 0 is no duration: [--duration 0] does not end the
    run after the first tick, the run is the same as without a duration. *)
Theorem zero_duration_is_no_duration (script : list TickEvent) (s : State) :
  start_monitoring (Some 0) script s = start_monitoring None script s.
Proof.
  unfold start_monitoring.
  change (start_monitoring_prologue (Some 0) s)
    with (start_monitoring_prologue None s).
  rewrite monitoring_loop_zero_duration. reflexivity.
Qed.

(** Without a duration the loop goes on for as long as iterations complete. *)
Lemma loop_runs_on (start_time : Q) (ws : list World) :
  forall s : State,
    running s = true ->
    0 <= interval s ->
    forallb (fun w => world_errors_only w (containers s)) ws = true ->
    monitoring_loop None start_time (map completed ws) s = None.
Proof.
  induction ws as [|w ws IH]; intros s Hr Hi Hws.
  - simpl. rewrite Hr. reflexivity.
  - simpl in Hws. apply andb_prop in Hws. destruct Hws as [Hw Hws].
    destruct (loop_continue None start_time w (map completed ws) s Hr Hw Hi eq_refl)
      as [s2 [Hstep [Hr2 [Hcfg [Hi2 _]]]]].
    simpl map. rewrite Hstep. apply IH.
    + exact Hr2.
    + rewrite Hi2. exact Hi.
    + rewrite Hcfg. exact Hws.
Qed.

(** X13. Started without [--duration], or with [--duration 0], the program
    never ends by itself: as long as iterations complete, whatever their
    number, the loop is still running and nothing is flushed. *)
Theorem main_without_duration_runs_on (arg_interval arg_duration : option Z)
  (now : Q) (ws : list World) :
  arg_duration = None \/ arg_duration = Some 0 ->
  0 <= match arg_interval with Some i => i | None => 10 end ->
  forallb (fun w => world_errors_only w (containers (init 0 0))) ws = true ->
  main arg_interval arg_duration now (map completed ws) = None.
Proof.
  intros Hd Hi Hws. unfold main, start_monitoring.
  assert (Hloop : forall s,
             monitoring_loop arg_duration (clock s) (map completed ws)
               (start_monitoring_prologue arg_duration s)
             = monitoring_loop None (clock s) (map completed ws)
                 (start_monitoring_prologue None s)).
  { intros s. destruct Hd as [->| ->]; [reflexivity|].
    rewrite monitoring_loop_zero_duration. reflexivity. }
  rewrite Hloop.
  destruct (start_monitoring_prologue_spec None
              (init match arg_interval with Some i => i | None => 10 end now))
    as [Hr0 [_ [Hcfg0 [Hi0 _]]]].
  rewrite loop_runs_on; [reflexivity | exact Hr0 | rewrite Hi0; exact Hi |].
  rewrite Hcfg0. exact Hws.
Qed.

(** X13 on three iterations of the program started with no argument. *)
Lemma main_without_duration_runs_on_witness :
  main None None 0
    [completed (sample_world 1); completed (sample_world 1);
     completed (sample_world 1)] = None.
Proof.
  apply (main_without_duration_runs_on None None 0
           [sample_world 1; sample_world 1; sample_world 1]).
  - left. reflexivity.
  - lia.
  - reflexivity.
Defined.

(** The end of [start_monitoring] in full: the finally clause saves the
    series the loop has left, under the name stamped with the current
    second. *)
Lemma start_monitoring_exit (duration : option Z) (script : list TickEvent)
  (s s2 : State) (o : outcome unit) :
  monitoring_loop duration (clock s) script (start_monitoring_prologue duration s)
  = Some (o, s2) ->
  exists s3,
    start_monitoring duration script s
    = Some (match o with
            | Raise KeyboardInterrupt => Ret tt
            | _ => o
            end, s3) /\
    data s3 = data s2 /\
    clock s3 = clock s2 /\
    calls s3 = calls s2 ++ [CallSave] /\
    running s3 = false /\
    files s3 = files s2 ++ saved_files (Stamped (Qfloor (clock s2))) (data s2).
Proof.
  intros Hloop. unfold start_monitoring. rewrite Hloop.
  unfold try_finally, try_except.
  assert (Hfin : forall (x : State) (o' : outcome unit),
             data x = data s2 -> clock x = clock s2 ->
             calls x = calls s2 -> files x = files s2 ->
             exists s3,
               Some (match finally_clause x with
                     | (Ret _, s'') => (o', s'')
                     | (Raise e, s'') => (Raise e, s'')
                     end) = Some (o', s3) /\
               data s3 = data s2 /\
               clock s3 = clock s2 /\
               calls s3 = calls s2 ++ [CallSave] /\
               running s3 = false /\
               files s3 = files s2
                          ++ saved_files (Stamped (Qfloor (clock s2))) (data s2)).
  { intros x o' Hd Hclk Hc Hf. unfold finally_clause. rewrite bind_modify.
    destruct (save_data_files None (set_running false x))
      as [r [s3 [Hrun [Hf3 [Hd3 [Hc3 [Hclk3 [_ [Hr3 _]]]]]]]]].
    rewrite (bind_eq _ _ _ _ _ Hrun). unfold ret.
    exists s3. split; [reflexivity|].
    simpl in Hf3, Hd3, Hc3, Hclk3, Hr3.
    unfold chosen_filename in Hf3. simpl in Hf3.
    rewrite Hd3, Hclk3, Hc3, Hf3, Hd, Hclk, Hc, Hf.
    repeat split. exact Hr3. }
  destruct o as [[]|e]; [apply Hfin; reflexivity|].
  destruct e; apply Hfin; reflexivity.
Qed.

(** The tick that ends the loop, with the time at which it ends. *)
Lemma loop_break_clock (duration : option Z) (start_time : Q) (w : World)
  (sl : SleepEvent) (rest : list TickEvent) (s : State) :
  running s = true ->
  world_errors_only w (containers s) = true ->
  duration_reached duration start_time (clock s + tick_duration w)%Q = true ->
  exists s1,
    monitoring_loop duration start_time (Tick w sl :: rest) s = Some (Ret tt, s1) /\
    calls s1 = calls s ++ [CallCollect] /\
    clock s1 = (clock s + tick_duration w)%Q.
Proof.
  intros Hr Hw Hdur.
  destruct (collect_metrics_total w s Hw) as [m [s1 [Hrun [_ [Hc [Hclk _]]]]]].
  exists (add_log LogDurationCompleted s1). split.
  - rewrite <- Hclk in Hdur. simpl. rewrite Hr, Hrun, Hdur. reflexivity.
  - simpl. split; assumption.
Qed.

Lemma duration_reached_elapsed (d : Z) (start_time now : Q) :
  duration_reached (Some d) start_time now = true ->
  (inject_Z d <= now - start_time)%Q.
Proof.
  unfold duration_reached. intros H. apply andb_prop in H.
  destruct H as [_ H]. apply Qle_bool_iff. exact H.
Qed.

(** With a positive duration and a positive interval the loop ends: at the
    latest with the tick before which [duration] seconds of sleep alone
    have gone by. *)
Lemma loop_ends (d : Z) (start_time : Q) (rest : list TickEvent) (ws : list World) :
  forall (w : World) (s : State),
    d <> 0 ->
    running s = true ->
    0 < interval s ->
    forallb (fun w' => world_errors_only w' (containers s)) (w :: ws) = true ->
    durations_nonneg (w :: ws) = true ->
    (inject_Z d <= clock s - start_time
                   + inject_Z (Z.of_nat (List.length ws) * interval s))%Q ->
    exists s1,
      monitoring_loop (Some d) start_time (map completed (w :: ws) ++ rest) s
      = Some (Ret tt, s1) /\
      (ticks s < ticks s1 <= ticks s + S (List.length ws))%nat /\
      flushes s1 = flushes s /\
      (inject_Z d <= clock s1 - start_time)%Q.
Proof.
  induction ws as [|w2 ws IH]; intros w s Hd Hr Hi Hws Hdur Hinv;
    simpl in Hws, Hdur; apply andb_prop in Hws; destruct Hws as [Hw Hws];
    apply andb_prop in Hdur; destruct Hdur as [Hdw Hdur];
    apply Qle_bool_iff in Hdw.
  - simpl in Hinv.
    assert (Hreached : duration_reached (Some d) start_time
                         (clock s + tick_duration w)%Q = true).
    { apply duration_reached_true; [exact Hd|].
      change (inject_Z 0) with 0%Q in Hinv. lra. }
    destruct (loop_break_clock (Some d) start_time w SleepDone rest s Hr Hw Hreached)
      as [s1 [Hrun [Hc Hclk]]].
    exists s1. split; [exact Hrun|].
    rewrite (ticks_calls_app s s1 _ Hc), (flushes_calls_app s s1 _ Hc). simpl.
    split; [lia|]. split; [lia|].
    rewrite Hclk. apply duration_reached_elapsed. exact Hreached.
  - destruct (duration_reached (Some d) start_time (clock s + tick_duration w)%Q)
      eqn:Hreached.
    + destruct (loop_break_clock (Some d) start_time w SleepDone
                  (map completed (w2 :: ws) ++ rest) s Hr Hw Hreached)
        as [s1 [Hrun [Hc Hclk]]].
      exists s1. split; [exact Hrun|].
      rewrite (ticks_calls_app s s1 _ Hc), (flushes_calls_app s s1 _ Hc). simpl.
      split; [lia|]. split; [lia|].
      rewrite Hclk. apply duration_reached_elapsed. exact Hreached.
    + destruct (loop_continue (Some d) start_time w
                  (map completed (w2 :: ws) ++ rest) s Hr Hw ltac:(lia) Hreached)
        as [s2 [Hstep [Hr2 [Hcfg [Hi2 [Hclk2 Hc2]]]]]].
      destruct (IH w2 s2 Hd Hr2) as [s1 [Hrun [Ht [Hf Hel]]]].
      * rewrite Hi2. exact Hi.
      * rewrite Hcfg. exact Hws.
      * exact Hdur.
      * rewrite Hclk2, Hi2.
        replace (Z.of_nat (List.length (w2 :: ws)) * interval s)
          with (Z.of_nat (List.length ws) * interval s + interval s) in Hinv
          by (simpl List.length; lia).
        rewrite inject_Z_plus in Hinv. lra.
      * exists s1. split.
        { change (map completed (w :: w2 :: ws) ++ rest)
            with (completed w :: (map completed (w2 :: ws) ++ rest)).
          rewrite Hstep. exact Hrun. }
        rewrite (ticks_calls_app s s2 _ Hc2) in Ht.
        rewrite (flushes_calls_app s s2 _ Hc2) in Hf. simpl in Ht, Hf.
        simpl List.length. split; [lia|]. split; [lia | exact Hel].
Qed.

(** X14. With a positive duration and a positive interval a run ends by
    itself, after at least one tick and at most as many ticks as are
    needed for the sleeps between them to add up to the duration; it then
    flushes once and returns, at least [duration] seconds after it was
    started.  No tick may take a negative time. *)
Theorem positive_duration_ends_the_run (d : Z) (w : World) (ws : list World)
  (rest : list TickEvent) (s : State) :
  0 < d ->
  0 < interval s ->
  forallb (fun w' => world_errors_only w' (containers s)) (w :: ws) = true ->
  durations_nonneg (w :: ws) = true ->
  d <= Z.of_nat (List.length ws) * interval s ->
  exists s',
    start_monitoring (Some d) (map completed (w :: ws) ++ rest) s
    = Some (Ret tt, s') /\
    (ticks s < ticks s' <= ticks s + S (List.length ws))%nat /\
    flushes s' = (flushes s + 1)%nat /\
    running s' = false /\
    (inject_Z d <= clock s' - clock s)%Q.
Proof.
  intros Hd Hi Hws Hdur Hlen.
  destruct (start_monitoring_prologue_spec (Some d) s)
    as [Hr0 [Hc0 [Hcfg0 [Hi0 [Hclk0 _]]]]].
  destruct (loop_ends d (clock s) rest ws w (start_monitoring_prologue (Some d) s))
    as [s1 [Hloop [Ht [Hf Hel]]]].
  - lia.
  - exact Hr0.
  - rewrite Hi0. exact Hi.
  - rewrite Hcfg0. exact Hws.
  - exact Hdur.
  - rewrite Hclk0, Hi0. rewrite Zle_Qle in Hlen. lra.
  - destruct (start_monitoring_exit (Some d) _ s s1 _ Hloop)
      as [s3 [Hrun [_ [Hclk3 [Hc3 [Hr3 _]]]]]].
    exists s3. split; [exact Hrun|].
    rewrite (ticks_calls_app s1 s3 _ Hc3), (flushes_calls_app s1 s3 _ Hc3).
    unfold ticks, flushes in *. rewrite Hc0 in Ht, Hf. simpl.
    split; [lia|]. split; [lia|]. split; [exact Hr3|].
    rewrite Hclk3. exact Hel.
Qed.

(** X14 for 25 seconds at the default interval with ticks of one second:
    the run ends within four ticks. *)
Lemma positive_duration_ends_the_run_witness :
  exists s',
    start_monitoring (Some 25)
      [completed (sample_world 1); completed (sample_world 1);
       completed (sample_world 1); completed (sample_world 1)] (init 10 0)
    = Some (Ret tt, s') /\
    (0 < ticks s' <= 4)%nat /\
    flushes s' = 1%nat.
Proof.
  destruct (positive_duration_ends_the_run 25 (sample_world 1)
              [sample_world 1; sample_world 1; sample_world 1] [] (init 10 0))
    as [s' [Hrun [Ht [Hf _]]]]; try reflexivity; try (simpl; lia).
  exists s'. split; [exact Hrun|]. split; [exact Ht | exact Hf].
Defined.

(** ** What a run leaves behind *)

Lemma signal_handler_files (s : State) :
  exists s',
    signal_handler s = (Raise (SystemExit 0), s') /\
    data s' = data s /\
    calls s' = calls s ++ [CallSave] /\
    exists fname, files s' = files s ++ saved_files fname (data s').
Proof.
  unfold signal_handler. repeat rewrite bind_modify.
  destruct (save_data_files None (set_running false (add_log LogShutdownSignal s)))
    as [r [s' [Hrun [Hf [Hd [Hc _]]]]]].
  rewrite (bind_eq _ _ _ _ _ Hrun). unfold raise.
  exists s'. split; [reflexivity|]. simpl in Hf, Hd, Hc.
  split; [exact Hd|]. split; [exact Hc|].
  eexists. rewrite Hd. exact Hf.
Qed.

Lemma ticks_add_sleep (s : State) : ticks (add_call CallSleep s) = ticks s.
Proof.
  rewrite (ticks_calls_app s (add_call CallSleep s) [CallSleep] eq_refl).
  simpl. lia.
Qed.

(** [time.sleep], with or without a signal: the series is as it was, no
    tick is made, and a file is written only by the signal handler. *)
Lemma sleep_effects (sl : SleepEvent) (s s' : State) (o : outcome unit) :
  sleep sl s = (o, s') ->
  data s' = data s /\
  ticks s' = ticks s /\
  exists fs,
    files s' = files s ++ fs /\
    (fs = [] \/ exists fname, fs = saved_files fname (data s')) /\
    (quiet_sleep sl = true -> fs = []) /\
    (o = Ret tt -> fs = []).
Proof.
  unfold sleep. rewrite bind_modify. unfold bind at 1, gets.
  cbn [interval add_call].
  destruct (Z.ltb (interval s) 0).
  - unfold raise. intros [= <- <-]. split; [reflexivity|].
    split; [apply ticks_add_sleep|].
    exists []. simpl. rewrite app_nil_r. auto.
  - destruct sl.
    + unfold modify. intros [= <- <-]. split; [reflexivity|].
      split; [apply ticks_add_sleep|].
      exists []. simpl. rewrite app_nil_r. auto.
    + destruct (signal_handler_files (add_call CallSleep s))
        as [s1 [Hrun [Hd [Hc [fname Hf]]]]].
      rewrite Hrun. intros [= <- <-]. simpl in Hd, Hc, Hf.
      split; [exact Hd|].
      split; [rewrite <- app_assoc in Hc; rewrite (ticks_calls_app s _ _ Hc);
              simpl; lia|].
      eexists. split; [exact Hf|].
      split; [right; exists fname; reflexivity|]. split; discriminate.
    + unfold raise. intros [= <- <-]. split; [reflexivity|].
      split; [apply ticks_add_sleep|].
      exists []. simpl. rewrite app_nil_r. auto.
Qed.

(** The loop, however it ends: it has only appended to the series, at most
    one snapshot per tick, and the only files written are a flush of the
    series by the signal handler, if a signal came. *)
Lemma loop_effects (duration : option Z) (start_time : Q) (script : list TickEvent) :
  forall (s s' : State) (o : outcome unit),
    monitoring_loop duration start_time script s = Some (o, s') ->
    exists new fs,
      data s' = data s ++ new /\
      (ticks s + List.length new <= ticks s')%nat /\
      files s' = files s ++ fs /\
      (fs = [] \/ exists fname, fs = saved_files fname (data s')) /\
      (no_signal script = true -> fs = []).
Proof.
  induction script as [|ev rest IH]; intros s s' o Hloop; simpl in Hloop.
  - destruct (running s); [discriminate|]. injection Hloop as _ <-.
    exists [], []. rewrite !app_nil_r. simpl. rewrite Nat.add_0_r. auto 6.
  - destruct (running s).
    2:{ injection Hloop as _ <-.
        exists [], []. rewrite !app_nil_r. simpl. rewrite Nat.add_0_r. auto 6. }
    destruct ev as [w sl|].
    2:{ destruct (signal_handler_files s) as [s1 [Hrun [Hd [Hc [fname Hf]]]]].
        rewrite Hrun in Hloop. injection Hloop as _ <-.
        exists []. eexists. rewrite app_nil_r. split; [exact Hd|].
        split; [rewrite (ticks_calls_app s s1 _ Hc); simpl; lia|].
        split; [exact Hf|].
        split; [right; exists fname; reflexivity | discriminate]. }
    destruct (collect_metrics w s) as [o1 s1] eqn:Hcm.
    destruct (collect_metrics_outcomes w s s1 o1 Hcm)
      as [Hf1 [Hc1 [[-> [m Hd1]]|[e [-> [_ Hd1]]]]]].
    + destruct (duration_reached duration start_time (clock s1)).
      * injection Hloop as _ <-. exists [m], []. simpl.
        rewrite app_nil_r. split; [exact Hd1|].
        split; [unfold ticks in *; simpl; rewrite Hc1, filter_app, length_app; simpl; lia|].
        split; [exact Hf1|]. auto.
      * destruct (sleep sl s1) as [o2 s2] eqn:Hsl.
        destruct (sleep_effects sl s1 s2 o2 Hsl)
          as [Hd2 [Ht2 [fs2 [Hf2 [Hfs2 [Hquiet Hret]]]]]].
        pose proof (ticks_calls_app s s1 _ Hc1) as Ht1. simpl in Ht1.
        destruct o2 as [[]|e2].
        -- destruct (IH s2 s' o Hloop) as [new [fs [Hd [Ht [Hf [Hfs Hns]]]]]].
           rewrite (Hret eq_refl), app_nil_r in Hf2.
           exists (m :: new), fs.
           split; [rewrite Hd, Hd2, Hd1, <- app_assoc; reflexivity|].
           split; [simpl; lia|].
           split; [rewrite Hf, Hf2, Hf1; reflexivity|].
           split; [exact Hfs|].
           intros Hscript. apply Hns. simpl in Hscript.
           apply andb_prop in Hscript. tauto.
        -- injection Hloop as _ <-. exists [m], fs2.
           split; [rewrite Hd2; exact Hd1|].
           split; [simpl; lia|].
           split; [rewrite Hf2, Hf1; reflexivity|].
           split; [exact Hfs2|].
           intros Hscript. apply Hquiet. simpl in Hscript.
           apply andb_prop in Hscript. destruct Hscript as [Hhere _].
           destruct sl; [reflexivity | discriminate Hhere | reflexivity].
    + injection Hloop as _ <-. exists [], []. rewrite !app_nil_r.
      split; [exact Hd1|].
      split; [rewrite (ticks_calls_app s s1 _ Hc1); simpl; lia|].
      split; [exact Hf1|]. auto.
Qed.

(** X15. A run is append-only: however it ends, and whatever the worlds
    answer, the series it leaves is the series it started with followed by
    the new snapshots, at most one for each tick that was begun; nothing
    is removed or changed. *)
Theorem run_only_appends (duration : option Z) (script : list TickEvent)
  (s s' : State) (o : outcome unit) :
  start_monitoring duration script s = Some (o, s') ->
  exists new,
    data s' = data s ++ new /\
    (ticks s + List.length new <= ticks s')%nat.
Proof.
  intros Hrun.
  destruct (monitoring_loop duration (clock s) script
              (start_monitoring_prologue duration s)) as [[o1 s1]|] eqn:Hloop.
  - destruct (start_monitoring_exit duration script s s1 o1 Hloop)
      as [s3 [Hrun3 [Hd3 [_ [Hc3 _]]]]].
    rewrite Hrun3 in Hrun. injection Hrun as _ <-.
    destruct (loop_effects _ _ _ _ _ _ Hloop) as [new [fs [Hd [Ht _]]]].
    destruct (start_monitoring_prologue_spec duration s)
      as [_ [Hc0 [_ [_ [_ Hd0]]]]].
    exists new. rewrite Hd3, Hd, Hd0. split; [reflexivity|].
    rewrite (ticks_calls_app s1 s3 _ Hc3). simpl.
    unfold ticks in *. rewrite Hc0 in Ht. lia.
  - unfold start_monitoring in Hrun. rewrite Hloop in Hrun. discriminate.
Qed.

(** X15 on a run of two ticks on a monitor that already holds the sample
    series: the series is kept and grows by two. *)
Lemma run_only_appends_witness :
  exists s' new,
    start_monitoring (Some 5)
      [completed (sample_world 1); completed (sample_world 6)]
      (set_data sample_series (init 10 0)) = Some (Ret tt, s') /\
    data s' = sample_series ++ new /\
    (List.length new <= 2)%nat.
Proof.
  eexists. 
  assert (Hrun : start_monitoring (Some 5)
                   [completed (sample_world 1); completed (sample_world 6)]
                   (set_data sample_series (init 10 0))
                 = Some (Ret tt,
                         snd (match start_monitoring (Some 5)
                                      [completed (sample_world 1);
                                       completed (sample_world 6)]
                                      (set_data sample_series (init 10 0)) with
                              | Some r => r
                              | None => (Ret tt, init 10 0)
                              end)))
    by (vm_compute; reflexivity).
  destruct (run_only_appends _ _ _ _ _ Hrun) as [new [Hd Ht]].
  exists new. split; [exact Hrun|]. split; [exact Hd|].
  assert (Hticks : ticks (snd (match start_monitoring (Some 5)
                                      [completed (sample_world 1);
                                       completed (sample_world 6)]
                                      (set_data sample_series (init 10 0)) with
                              | Some r => r
                              | None => (Ret tt, init 10 0)
                              end)) = 2%nat)
    by (vm_compute; reflexivity).
  rewrite Hticks in Ht. simpl in Ht. exact Ht.
Defined.



(** ** Other ways out of the loop *)

Lemma sleep_negative (sl : SleepEvent) (s : State) :
  interval s < 0 ->
  sleep sl s
  = (Raise (ValueError "sleep length must be non-negative"), add_call CallSleep s).
Proof.
  intros Hi. unfold sleep. rewrite bind_modify. unfold bind, gets. simpl.
  replace (Z.ltb (interval s) 0) with true by (symmetry; apply Z.ltb_lt; exact Hi).
  reflexivity.
Qed.

(** X17. With a negative interval the first [time.sleep] raises ValueError:
    unless the duration has already elapsed after the first tick, the run
    ends there with that exception, after exactly one tick, whatever was
    to happen during the sleep; the one snapshot is kept and flushed. *)
Theorem negative_interval_ends_after_one_tick (duration : option Z) (w : World)
  (sl : SleepEvent) (rest : list TickEvent) (s : State) :
  interval s < 0 ->
  world_errors_only w (containers s) = true ->
  duration_reached duration (clock s) (clock s + tick_duration w)%Q = false ->
  exists s' m,
    start_monitoring duration (Tick w sl :: rest) s
    = Some (Raise (ValueError "sleep length must be non-negative"), s') /\
    ticks s' = (ticks s + 1)%nat /\
    flushes s' = (flushes s + 1)%nat /\
    data s' = data s ++ [m] /\
    files s' = files s ++ saved_files (Stamped (Qfloor (clock s'))) (data s').
Proof.
  intros Hi Hw Hdur.
  destruct (start_monitoring_prologue_spec duration s)
    as [Hr0 [Hc0 [Hcfg0 [Hi0 [Hclk0 Hd0]]]]].
  set (s0 := start_monitoring_prologue duration s) in *.
  assert (Hw0 : world_errors_only w (containers s0) = true)
    by (rewrite Hcfg0; exact Hw).
  destruct (collect_metrics_returns w s0 Hw0) as [s1 Hcm].
  destruct (collect_metrics_spec w s0 s1 Hcm)
    as [m [Hd1 [Hc1 [Hclk1 [Hi1 [_ [_ [Hf1 _]]]]]]]].
  assert (Hloop : monitoring_loop duration (clock s) (Tick w sl :: rest) s0
                  = Some (Raise (ValueError "sleep length must be non-negative"),
                          add_call CallSleep s1)).
  { simpl. rewrite Hr0, Hcm, Hclk1, Hclk0, Hdur.
    rewrite sleep_negative by (rewrite Hi1, Hi0; exact Hi). reflexivity. }
  destruct (start_monitoring_exit duration _ s _ _ Hloop)
    as [s3 [Hrun [Hd3 [Hclk3 [Hc3 [_ Hf3]]]]]].
  exists s3, m. split; [exact Hrun|].
  simpl in Hd3, Hclk3, Hc3, Hf3.
  rewrite Hc1, Hc0, <- !app_assoc in Hc3. simpl in Hc3.
  rewrite (ticks_calls_app s s3 _ Hc3), (flushes_calls_app s s3 _ Hc3). simpl.
  split; [reflexivity|]. split; [reflexivity|].
  split; [rewrite Hd3, Hd1, Hd0; reflexivity|].
  rewrite Hf3, Hf1, Hd3, Hclk3.
  unfold s0, start_monitoring_prologue.
  destruct duration as [d|]; [destruct (Z.eqb d 0)|]; reflexivity.
Qed.

(** X17 on a monitor built with interval -1. *)
Lemma negative_interval_ends_after_one_tick_witness :
  exists s',
    start_monitoring None [completed (sample_world 1)] (init (-1) 0)
    = Some (Raise (ValueError "sleep length must be non-negative"), s') /\
    ticks s' = 1%nat /\ flushes s' = 1%nat.
Proof.
  destruct (negative_interval_ends_after_one_tick None (sample_world 1)
              SleepDone [] (init (-1) 0))
    as [s' [m [Hrun [Ht [Hf _]]]]]; try reflexivity.
  exists s'. split; [exact Hrun|]. split; [exact Ht | exact Hf].
Defined.

Lemma sleep_interrupted (s : State) :
  0 <= interval s ->
  sleep SleepInterrupted s = (Raise KeyboardInterrupt, add_call CallSleep s).
Proof.
  intros Hi. unfold sleep. rewrite bind_modify. unfold bind, gets. simpl.
  replace (Z.ltb (interval s) 0) with false by (symmetry; apply Z.ltb_ge; exact Hi).
  reflexivity.
Qed.

(** Iterations that complete, without a duration: the loop is then where
    it would be had it started after them. *)
Lemma loop_completed_prefix (start_time : Q) (rest : list TickEvent)
  (pre : list World) :
  forall s : State,
    running s = true ->
    0 <= interval s ->
    forallb (fun w => world_errors_only w (containers s)) pre = true ->
    exists s2,
      monitoring_loop None start_time (map completed pre ++ rest) s
      = monitoring_loop None start_time rest s2 /\
      running s2 = true /\
      containers s2 = containers s /\
      interval s2 = interval s /\
      ticks s2 = (ticks s + List.length pre)%nat /\
      flushes s2 = flushes s.
Proof.
  induction pre as [|w pre IH]; intros s Hr Hi Hpre.
  - exists s. simpl. rewrite Nat.add_0_r. auto 6.
  - simpl in Hpre. apply andb_prop in Hpre. destruct Hpre as [Hw Hpre].
    destruct (loop_continue None start_time w (map completed pre ++ rest)
                s Hr Hw Hi eq_refl)
      as [s1 [Hstep [Hr1 [Hcfg1 [Hi1 [_ Hc1]]]]]].
    destruct (IH s1 Hr1) as [s2 [Hrun [Hr2 [Hcfg2 [Hi2 [Ht2 Hf2]]]]]].
    + rewrite Hi1. exact Hi.
    + rewrite Hcfg1. exact Hpre.
    + exists s2.
      split; [change (map completed (w :: pre) ++ rest)
                with (completed w :: (map completed pre ++ rest));
              rewrite Hstep; exact Hrun|].
      rewrite (ticks_calls_app s s1 _ Hc1) in Ht2.
      rewrite (flushes_calls_app s s1 _ Hc1) in Hf2. simpl in Ht2, Hf2.
      split; [exact Hr2|]. split; [congruence|]. split; [congruence|].
      simpl List.length. split; lia.
Qed.

(** X18. A KeyboardInterrupt raised while the loop sleeps does not leave
    [start_monitoring]: after any number of completed iterations, the run
    stops with the tick before that sleep, flushes once and returns
    normally, the monitor no longer running. *)
Theorem keyboard_interrupt_ends_the_run_normally (pre : list World) (w : World)
  (rest : list TickEvent) (s : State) :
  0 <= interval s ->
  forallb (fun w' => world_errors_only w' (containers s)) (pre ++ [w]) = true ->
  exists s',
    start_monitoring None (map completed pre ++ Tick w SleepInterrupted :: rest) s
    = Some (Ret tt, s') /\
    ticks s' = (ticks s + List.length pre + 1)%nat /\
    flushes s' = (flushes s + 1)%nat /\
    running s' = false.
Proof.
  intros Hi Hws. rewrite forallb_app in Hws. apply andb_prop in Hws.
  destruct Hws as [Hpre Hw]. simpl in Hw. rewrite andb_true_r in Hw.
  destruct (start_monitoring_prologue_spec None s)
    as [Hr0 [Hc0 [Hcfg0 [Hi0 _]]]].
  destruct (loop_completed_prefix (clock s) (Tick w SleepInterrupted :: rest) pre
              (start_monitoring_prologue None s) Hr0)
    as [s2 [Hpref [Hr2 [Hcfg2 [Hi2 [Ht2 Hf2]]]]]].
  - rewrite Hi0. exact Hi.
  - rewrite Hcfg0. exact Hpre.
  - assert (Hw2 : world_errors_only w (containers s2) = true)
      by (rewrite Hcfg2, Hcfg0; exact Hw).
    destruct (collect_metrics_total w s2 Hw2)
      as [m [s3 [Hcm [_ [Hc3 [_ [Hi3 _]]]]]]].
    assert (Hloop : monitoring_loop None (clock s)
                      (map completed pre ++ Tick w SleepInterrupted :: rest)
                      (start_monitoring_prologue None s)
                    = Some (Raise KeyboardInterrupt, add_call CallSleep s3)).
    { rewrite Hpref. simpl. rewrite Hr2, Hcm.
      rewrite sleep_interrupted by (rewrite Hi3, Hi2, Hi0; exact Hi).
      reflexivity. }
    destruct (start_monitoring_exit None _ s _ _ Hloop)
      as [s4 [Hrun [_ [_ [Hc4 [Hr4 _]]]]]].
    exists s4. split; [exact Hrun|].
    simpl in Hc4. rewrite Hc3, <- !app_assoc in Hc4. simpl in Hc4.
    rewrite (ticks_calls_app s2 s4 _ Hc4), (flushes_calls_app s2 s4 _ Hc4).
    unfold ticks, flushes in *. rewrite Hc0 in Ht2, Hf2. simpl.
    split; [lia|]. split; [lia | exact Hr4].
Qed.

(** X18 on one completed iteration, then a KeyboardInterrupt in the sleep
    after the second tick. *)
Lemma keyboard_interrupt_ends_the_run_normally_witness :
  exists s',
    start_monitoring None
      [completed (sample_world 1); Tick (sample_world 1) SleepInterrupted]
      (init 10 0)
    = Some (Ret tt, s') /\
    ticks s' = 2%nat /\ flushes s' = 1%nat.
Proof.
  destruct (keyboard_interrupt_ends_the_run_normally [sample_world 1]
              (sample_world 1) [] (init 10 0))
    as [s' [Hrun [Ht [Hf _]]]]; try reflexivity.
  - simpl. lia.
  - exists s'. split; [exact Hrun|]. split; [exact Ht | exact Hf].
Defined.

(** ** What an entry says of its target *)

Lemma get_container_stats_body_fields (w : World) (name : string)
  (r : ContainerStats) :
  get_container_stats_body w name = Ret r ->
  container_name r = name /\
  timestamp r = now_container w name /\
  exists c, containers_get w name = Ret c /\ status r = container_status c.
Proof.
  unfold get_container_stats_body.
  destruct (containers_get w name) as [c|e]; [|discriminate]. simpl.
  destruct (container_stats_call c) as [st|e]; [|discriminate]. simpl.
  destruct (calc_cpu_percent st) as [q|e]; [|discriminate]. simpl.
  destruct (memory_usage st) as [u|]; [|discriminate]. simpl.
  destruct (memory_limit st) as [l|]; [|discriminate]. simpl.
  unfold truediv at 1. destruct (Z.eqb l 0); [discriminate|]. simpl.
  intros [= <-]. simpl. repeat split. exists c. split; reflexivity.
Qed.

(** X19. In a snapshot every entry is filed under the name it carries in
    its own 'container_name' field, and holds the status that the docker
    client reported for the container of that name in that tick. *)
Theorem entries_describe_their_target (w : World) (s s' : State) :
  collect_metrics w s = (Ret tt, s') ->
  exists m,
    data s' = data s ++ [m] /\
    forall name e,
      dict_get name (metrics_containers m) = Some e ->
      container_name (entry_stats e) = name /\
      timestamp (entry_stats e) = now_container w name /\
      exists c,
        containers_get w name = Ret c /\
        status (entry_stats e) = container_status c.
Proof.
  intros Hrun.
  destruct (collect_metrics_spec w s s' Hrun)
    as [m [Hd [_ [_ [_ [_ [_ [_ [_ [_ [_ [Hent _]]]]]]]]]]]].
  exists m. split; [exact Hd|].
  intros name e He. apply get_container_stats_body_fields.
  exact (Hent name e He).
Qed.

(** X19 on the first tick in the sample world. *)
Lemma entries_describe_their_target_witness :
  exists m e,
    data sample_state_after_tick = [m] /\
    dict_get "node-nextjs-app" (metrics_containers m) = Some e /\
    container_name (entry_stats e) = "node-nextjs-app" /\
    status (entry_stats e) = "running".
Proof.
  destruct (entries_describe_their_target (sample_world 0) (init 10 0)
              sample_state_after_tick ltac:(vm_compute; reflexivity))
    as [m [Hd Hent]].
  simpl in Hd. injection Hd as <-.
  eexists. eexists. split; [reflexivity|]. split; [reflexivity|].
  destruct (Hent "node-nextjs-app" _ eq_refl) as [Hname [_ [c [Hc Hstatus]]]].
  split; [exact Hname|]. rewrite Hstatus.
  simpl in Hc. injection Hc as <-. reflexivity.
Defined.
